(** * bunup CLI: the init and create flows

    A shallow embedding of [packages/cli/src/init.ts] and
    [packages/cli/src/create.ts]: the manifest script merge, the
    configuration renderers, the prompt loops that collect entry files and
    workspace packages, the project-name prompt and the resolution of the
    template directory.

    Conventions.  A JavaScript string is a [string]; one character stands
    for one code unit.  A JavaScript object is the list of its own
    enumerable string-keyed properties in the order [Object.keys] reports
    them.  Numbers are kept abstract ([JsNumber]): the flows only test them
    for truthiness and print them. *)

From Stdlib Require Import String Ascii List ZArith NArith Bool Lia DecimalString.
From stdpp Require Import gmap strings.
Import ListNotations.

(** ** JavaScript values *)

Class JsNumber := {
  number : Type;
  number_truthy : number -> bool;      (* false for 0, -0 and NaN *)
  number_isFinite : number -> bool;    (* false for NaN and the infinities *)
  number_toString : number -> string;  (* Number::toString, radix 10 *)
}.

Definition LF : string := String (ascii_of_nat 10) "".
Definition TAB : string := String (ascii_of_nat 9) "".

(** [Array.prototype.join] on an array of strings. *)
Fixpoint join (sep : string) (l : list string) : string :=
  match l with
  | [] => ""
  | x :: r =>
      match r with
      | [] => x
      | _ :: _ => x +:+ sep +:+ join sep r
      end
  end.

(** [String.prototype.includes]. *)
Fixpoint includes (needle hay : string) : bool :=
  String.prefix needle hay ||
  match hay with
  | EmptyString => false
  | String _ rest => includes needle rest
  end.

Fixpoint has_char (c : ascii) (s : string) : bool :=
  match s with
  | EmptyString => false
  | String a r => Ascii.eqb a c || has_char c r
  end.

(** Pieces of text, each followed by one separating character, and a
    closing piece. *)
Fixpoint glue (parts : list (string * ascii)) (last : string) : string :=
  match parts with
  | [] => last
  | (piece, c) :: r => piece +:+ String c (glue r last)
  end.

Definition index_toString (n : N) : string :=
  NilEmpty.string_of_uint (N.to_uint n).

(** An array index is a canonical numeric string below 2^32 - 1; such keys
    are enumerated first, in ascending order. *)
Definition array_index (k : string) : option N :=
  match NilEmpty.uint_of_string k with
  | Some d =>
      let n := N.of_uint d in
      if String.eqb (index_toString n) k && (n <? 4294967295)%N
      then Some n else None
  | None => None
  end.

Section Values.
Context `{JsNumber}.

#[local] Unset Elimination Schemes.

Inductive json :=
  | JNull
  | JBool (b : bool)
  | JNum (n : number)
  | JStr (s : string)
  | JArr (l : list json)
  | JObj (o : list (string * json)).

Definition obj := list (string * json).

(** ToBoolean; [None] is [undefined]. *)
Definition truthy (v : option json) : bool :=
  match v with
  | None => false
  | Some JNull => false
  | Some (JBool b) => b
  | Some (JNum n) => number_truthy n
  | Some (JStr s) => negb (String.eqb s "")
  | Some (JArr _) => true
  | Some (JObj _) => true
  end.

Definition Object_keys (o : obj) : list string := map fst o.

Fixpoint obj_get (k : string) (o : obj) : option json :=
  match o with
  | [] => None
  | (k', v) :: r => if String.eqb k k' then Some v else obj_get k r
  end.

Definition has_own (k : string) (o : obj) : bool :=
  existsb (String.eqb k) (Object_keys o).

(** Does a new key [k] go in front of the existing key [k']? *)
Definition key_before (k k' : string) : bool :=
  match array_index k, array_index k' with
  | Some n, Some n' => (n <? n')%N
  | Some _, None => true
  | None, _ => false
  end.

Fixpoint obj_update (k : string) (v : json) (o : obj) : obj :=
  match o with
  | [] => []
  | (k', v') :: r =>
      if String.eqb k k' then (k', v) :: r else (k', v') :: obj_update k v r
  end.

Fixpoint obj_insert (k : string) (v : json) (o : obj) : obj :=
  match o with
  | [] => [(k, v)]
  | (k', v') :: r =>
      if key_before k k' then (k, v) :: (k', v') :: r
      else (k', v') :: obj_insert k v r
  end.

(** CreateDataProperty on an ordinary object: an existing key keeps its
    place, a new one is added at the end (or among the array indices). *)
Definition obj_set (k : string) (v : json) (o : obj) : obj :=
  if has_own k o then obj_update k v o else obj_insert k v o.

(** CopyDataProperties: what a spread element does to the object literal
    under construction. *)
Definition copy_props (source target : obj) : obj :=
  fold_left (fun acc kv => obj_set (fst kv) (snd kv) acc) source target.

Fixpoint indexed {A} (f : A -> json) (i : N) (l : list A) : obj :=
  match l with
  | [] => []
  | x :: r => (index_toString i, f x) :: indexed f (N.succ i) r
  end.

(** The own enumerable properties a spread copies from a value.  Arrays
    and strings expose their elements under index keys; the other
    primitives expose nothing. *)
Definition own_props (v : json) : obj :=
  match v with
  | JObj o => o
  | JArr l => indexed (fun x => x) 0%N l
  | JStr s => indexed (fun c => JStr (String c "")) 0%N (list_ascii_of_string s)
  | JNull | JBool _ | JNum _ => []
  end.

(** Well-formed key order of an object: no key twice, array indices
    first and ascending, the other keys after them. *)
Fixpoint keys_ordered (ks : list string) : bool :=
  match ks with
  | [] => true
  | k :: r =>
      negb (existsb (String.eqb k) r)
      && forallb (fun k' => negb (key_before k' k)) r
      && keys_ordered r
  end.

Definition wf_obj (o : obj) : bool := keys_ordered (Object_keys o).

(** ** JSON.stringify *)

Definition hex_digit (n : nat) : ascii :=
  match n with
  | 0 => "0" | 1 => "1" | 2 => "2" | 3 => "3" | 4 => "4" | 5 => "5"
  | 6 => "6" | 7 => "7" | 8 => "8" | 9 => "9" | 10 => "a" | 11 => "b"
  | 12 => "c" | 13 => "d" | 14 => "e" | _ => "f"
  end%char.

Definition quote_char (c : ascii) : string :=
  let n := nat_of_ascii c in
  if Nat.eqb n 8 then "\b"
  else if Nat.eqb n 9 then "\t"
  else if Nat.eqb n 10 then "\n"
  else if Nat.eqb n 12 then "\f"
  else if Nat.eqb n 13 then "\r"
  else if Nat.eqb n 34 then String "\" (String c "")
  else if Nat.eqb n 92 then "\\"
  else if Nat.ltb n 32
       then "\u00" +:+ String (hex_digit (n / 16)) (String (hex_digit (n mod 16)) "")
  else String c "".

Fixpoint quote_body (s : string) : string :=
  match s with
  | EmptyString => ""
  | String c r => quote_char c +:+ quote_body r
  end.

(** QuoteJSONString. *)
Definition QuoteJSONString (s : string) : string :=
  String (ascii_of_nat 34) (quote_body s) +:+ String (ascii_of_nat 34) "".

Fixpoint spaces (n : nat) : string :=
  match n with
  | O => ""
  | S m => " " +:+ spaces m
  end.

(** SerializeJSONProperty with SerializeJSONObject and SerializeJSONArray;
    [indent] is the current indentation and [gap] what one level adds. *)
Fixpoint SerializeJSONProperty (gap indent : string) (v : json) : string :=
  match v with
  | JNull => "null"
  | JBool true => "true"
  | JBool false => "false"
  | JNum n => if number_isFinite n then number_toString n else "null"
  | JStr s => QuoteJSONString s
  | JArr l =>
      let stepback := indent in
      let indent := indent +:+ gap in
      match l with
      | [] => "[]"
      | _ :: _ =>
          let partial := map (SerializeJSONProperty gap indent) l in
          if String.eqb gap "" then "[" +:+ join "," partial +:+ "]"
          else "[" +:+ LF +:+ indent
               +:+ join ("," +:+ LF +:+ indent) partial
               +:+ LF +:+ stepback +:+ "]"
      end
  | JObj o =>
      let stepback := indent in
      let indent := indent +:+ gap in
      match o with
      | [] => "{}"
      | _ :: _ =>
          let member (kv : string * json) :=
            QuoteJSONString (fst kv) +:+ ":"
            +:+ (if String.eqb gap "" then "" else " ")
            +:+ SerializeJSONProperty gap indent (snd kv) in
          let partial := map member o in
          if String.eqb gap "" then "{" +:+ join "," partial +:+ "}"
          else "{" +:+ LF +:+ indent
               +:+ join ("," +:+ LF +:+ indent) partial
               +:+ LF +:+ stepback +:+ "}"
      end
  end.

(** [JSON.stringify(value, null, space)] with a numeric [space]. *)
Definition JSON_stringify (v : json) (space : nat) : string :=
  SerializeJSONProperty (spaces (Nat.min 10 space)) "" v.

End Values.

Arguments json {_}.
Arguments obj {_}.

(** ** The interaction monad

    The flows talk to a terminal and a file system.  A [world] holds the
    files as [Bun.write] leaves them, the keys the user is still going to
    press, and what has been shown or done so far. *)

(** One answer of the user: a submitted line, a yes/no, a chosen option, a
    set of ticked options, or Ctrl-C. *)
Inductive key :=
  | KText (s : string)
  | KConfirm (b : bool)
  | KSelect (v : string)
  | KMulti (vs : list string)
  | KCancel.

(** What a prompt resolved to, whatever type the flow asserts of it
    ([as string], [as string[]], [as TemplateVariant]): a value of that
    type, or the cancel symbol. *)
Inductive resolved (A : Type) :=
  | Value (a : A)
  | Symbol.
Arguments Value {A}.
Arguments Symbol {A}.

(** The values of a list, its cancel symbols left out. *)
Definition values {A} (l : list (resolved A)) : list A :=
  flat_map (fun r => match r with Value a => [a] | Symbol => [] end) l.

(** The list as a list of values, when it holds no cancel symbol. *)
Fixpoint all_values {A} (l : list (resolved A)) : option (list A) :=
  match l with
  | [] => Some []
  | Value a :: r =>
      match all_values r with
      | Some r' => Some (a :: r')
      | None => None
      end
  | Symbol :: _ => None
  end.

(** What the flow showed or did.  Texts are recorded without their
    colours.  The replacement of a pattern is a string, [undefined]
    ([Value None]) or the cancel symbol. *)
Inductive event :=
  | EIntro (title : string)
  | EPrompt (message : string)
  | EInvalid (message : string)
  | ELogInfo (message : string)
  | ELogError (message : string)
  | ECancel (message : string)
  | EWrite (file content : string)
  | ETask (title : string)
  | ETaskDone (message : string)
  | EExec (command : string)
  | EDownload (source dir : string)
  | EReplace (files : string)
      (replacements : list (string * resolved (option string)))
      (ignore : list string)
  | ERename (oldPath newPath : string)
  | EOutro (lines : list string).

Record world := {
  files : gmap string string;
  keys : list key;
  out : list event;
}.

Inductive outcome (A : Type) :=
  | Done (a : A) (w : world)     (* returned *)
  | Waiting (w : world)          (* a prompt is open and no usable key is left *)
  | Cancelled (w : world)        (* an uncaught TypeError: the cancel symbol of
                                    a prompt was used as a string or a list *)
  | Exited (code : Z) (w : world)  (* process.exit *)
  | Diverged (w : world).        (* loop bound of the model exhausted *)
Arguments Done {A}.
Arguments Waiting {A}.
Arguments Cancelled {A}.
Arguments Exited {A}.
Arguments Diverged {A}.

Definition M (A : Type) := world -> outcome A.

Definition ret {A} (a : A) : M A := fun w => Done a w.

Definition bind {A B} (m : M A) (k : A -> M B) : M B :=
  fun w =>
    match m w with
    | Done a w' => k a w'
    | Waiting w' => Waiting w'
    | Cancelled w' => Cancelled w'
    | Exited c w' => Exited c w'
    | Diverged w' => Diverged w'
    end.

Notation "'let*' x ':=' m 'in' k" := (bind m (fun x => k))
  (at level 10, x name, m at level 100, k at level 200).
Notation "'run' m 'then' k" := (bind m (fun _ => k))
  (at level 10, m at level 100, k at level 200).

Definition emit (e : event) : M unit :=
  fun w => Done tt {| files := files w; keys := keys w; out := out w ++ [e] |}.

(** A collaborator acts: it is logged and it changes the files. *)
Definition effect (e : event)
    (change : gmap string string -> gmap string string) : M unit :=
  fun w => Done tt {| files := change (files w); keys := keys w;
                      out := out w ++ [e] |}.

Definition get_files : M (gmap string string) := fun w => Done (files w) w.

Definition process_exit {A} (code : Z) : M A := fun w => Exited code w.

Definition Bun_write (file content : string) : M unit :=
  fun w => Done tt {| files := <[file := content]> (files w);
                      keys := keys w;
                      out := out w ++ [EWrite file content] |}.

(** *** Prompts *)

(** What [confirm] resolves to: a boolean, or the cancel symbol. *)
Inductive answer := ABool (b : bool) | ASymbol.

Definition answer_truthy (a : answer) : bool :=
  match a with ABool b => b | ASymbol => true end.

Definition confirm (message : string) : M answer :=
  fun w =>
    let shown := out w ++ [EPrompt message] in
    match keys w with
    | KConfirm b :: r => Done (ABool b) {| files := files w; keys := r; out := shown |}
    | KCancel :: r => Done ASymbol {| files := files w; keys := r; out := shown |}
    | _ => Waiting {| files := files w; keys := keys w; out := shown |}
    end.

(** An uncaught [TypeError]: the flow used the cancel symbol as a string
    or as a list. *)
Definition TypeError {A} : M A := fun w => Cancelled w.

(** The text prompt keeps the line open until the validator accepts what
    was submitted; an accepted empty line becomes the default value.  This
    is the prompt whose result the very next step of the flow uses as a
    string (in a template literal, in [path.join], with [split]): on Ctrl-C
    that step throws.  Where the flow stores the result and goes on, the
    prompt is wrapped in [kept] below. *)
Fixpoint text_loop (validate : string -> option string)
    (defaultValue : option string)
    (fs : gmap string string) (ks : list key) (shown : list event) : outcome string :=
  match ks with
  | KText value :: r =>
      match validate value with
      | Some problem => text_loop validate defaultValue fs r (shown ++ [EInvalid problem])
      | None =>
          Done (if String.eqb value "" then default "" defaultValue else value)
               {| files := fs; keys := r; out := shown |}
      end
  | KCancel :: r => Cancelled {| files := fs; keys := r; out := shown |}
  | _ => Waiting {| files := fs; keys := ks; out := shown |}
  end.

Definition text (message : string) (defaultValue : option string)
    (validate : string -> option string) : M string :=
  fun w => text_loop validate defaultValue (files w) (keys w) (out w ++ [EPrompt message]).

Definition select (message : string) (options : list string) : M (option string) :=
  fun w =>
    let shown := out w ++ [EPrompt message] in
    match keys w with
    | KSelect v :: r =>
        if existsb (String.eqb v) options
        then Done (Some v) {| files := files w; keys := r; out := shown |}
        else Waiting {| files := files w; keys := keys w; out := shown |}
    | KCancel :: r => Done None {| files := files w; keys := r; out := shown |}
    | _ => Waiting {| files := files w; keys := keys w; out := shown |}
    end.

Fixpoint multiselect_loop (options : list string) (required : bool)
    (fs : gmap string string) (ks : list key) (shown : list event)
    : outcome (list string) :=
  match ks with
  | KMulti vs :: r =>
      if negb (forallb (fun v => existsb (String.eqb v) options) vs)
      then Waiting {| files := fs; keys := ks; out := shown |}
      else if required && (Nat.eqb (length vs) 0)
      then multiselect_loop options required fs r
             (shown ++ [EInvalid "Please select at least one option."])
      else Done vs {| files := fs; keys := r; out := shown |}
  | KCancel :: r => Cancelled {| files := fs; keys := r; out := shown |}
  | _ => Waiting {| files := fs; keys := ks; out := shown |}
  end.

Definition multiselect (message : string) (options : list string)
    (required : bool) : M (list string) :=
  fun w => multiselect_loop options required (files w) (keys w)
             (out w ++ [EPrompt message]).

(** A prompt whose result the flow stores as it is: on Ctrl-C the cancel
    symbol is the result, and the flow goes on with it. *)
Definition kept {A} (prompt : M A) : M (resolved A) :=
  fun w =>
    match prompt w with
    | Done a w' => Done (Value a) w'
    | Cancelled w' => Done Symbol w'
    | Waiting w' => Waiting w'
    | Exited c w' => Exited c w'
    | Diverged w' => Diverged w'
    end.

(** [while (true) { ... }]: the body either goes round again with a new
    state or breaks with the result.  Every round of the loops below opens
    a prompt and so uses up a key, hence the bound. *)
Fixpoint loop {St R} (fuel : nat) (body : St -> M (St + R)) (s : St) : M R :=
  match fuel with
  | O => fun w => Diverged w
  | S n =>
      fun w =>
        match body s w with
        | Done (inl s') w' => loop n body s' w'
        | Done (inr r) w' => Done r w'
        | Waiting w' => Waiting w'
        | Cancelled w' => Cancelled w'
        | Exited c w' => Exited c w'
        | Diverged w' => Diverged w'
        end
  end.

Definition while_true {St R} (body : St -> M (St + R)) (s : St) : M R :=
  fun w => loop (S (length (keys w))) body s w.

(** What a computation does to the keys still to come, and whether the
    loop bound can be hit. *)
Definition consumes {A} (m : M A) : Prop :=
  forall w a w', m w = Done a w' -> length (keys w') < length (keys w).

Definition keeps {A} (m : M A) : Prop :=
  forall w a w', m w = Done a w' -> length (keys w') <= length (keys w).

Definition steady {A} (m : M A) : Prop :=
  forall w w', m w <> Diverged w'.

(** A computation that leaves the files alone, and one that only adds to
    what has been shown. *)
Definition keeps_files {A} (m : M A) : Prop :=
  forall w a w', m w = Done a w' -> files w' = files w.

Definition grows {A} (m : M A) : Prop :=
  forall w a w', m w = Done a w' -> exists evs, out w' = out w ++ evs.

(** ** The host

    What the flows get from node, coffi and the shell, as functions of the
    files. *)

Section HostInterface.
Context `{JsNumber}.

Record PackageJson := {
  data : option obj;     (* the parsed content of package.json, or null *)
  path : option string;  (* the path to package.json, or null *)
}.

Class Host := {
  load_package_json : gmap string string -> PackageJson;
  fs_existsSync : gmap string string -> string -> bool;
  fs_isFile : gmap string string -> string -> bool;
  fs_isDirectory : gmap string string -> string -> bool;
  fs_accessSync : gmap string string -> string -> bool;  (* false: it throws *)
  path_join : string -> string -> string;
  process_cwd : string;
  (* what the collaborators leave on disk *)
  download_template : string -> string -> gmap string string -> gmap string string;
  replace_in_file : string -> list (string * resolved (option string)) ->
                    list string -> gmap string string -> gmap string string;
  rename_sync : string -> string -> gmap string string -> gmap string string;
  exec_shell : string -> gmap string string -> gmap string string;
}.

End HostInterface.

Definition DQ : string := String (ascii_of_nat 34) "".

(** [Intl.ListFormat('en-US', { style: 'long', type: 'conjunction' })]. *)
Fixpoint list_with_commas (l : list string) : string :=
  match l with
  | [] => ""
  | x :: r =>
      match r with
      | [] => "and " +:+ x
      | _ :: _ => x +:+ ", " +:+ list_with_commas r
      end
  end.

Definition formatListWithAnd (l : list string) : string :=
  match l with
  | [] => ""
  | [a] => a
  | [a; b] => a +:+ " and " +:+ b
  | _ => list_with_commas l
  end.

(** ** init.ts *)

Module Init.
Section WithHost.
Context `{JsNumber} `{!Host}.

Record WorkspacePackage := {
  name : string;
  root : string;
  entryFiles : list string;
  outputFormats : list string;
}.

(** The object the package loop pushes.  Its entry files and its formats
    are what the prompts resolved to, which the interface above does not
    bind: an entry can be the cancel symbol, and so can the formats. *)
Record PushedPackage := {
  pushed_name : string;
  pushed_root : string;
  pushed_entryFiles : list (resolved string);
  pushed_outputFormats : resolved (list string);
}.

(** [entryFiles.includes(value)] for a string [value]. *)
Definition Array_includes (entryFiles : list (resolved string)) (value : string)
    : bool :=
  existsb (fun e => match e with
                    | Value s => String.eqb value s
                    | Symbol => false
                    end) entryFiles.

Definition loadPackageJson : M PackageJson :=
  fun w => Done (load_package_json (files w)) w.

Definition promptForWorkspace : M bool :=
  let* a := confirm "Do you want to setup a Bunup workspace? (for building multiple packages with one command)" in
  ret (answer_truthy a).

(** In the two entry-file loops a cancelled prompt does not stop
    anything: the symbol is pushed, the question whether to add another is
    asked, and the list is returned with the symbol in it. *)
Definition collectEntryFilesForPackage (packageRoot packageName : string)
    : M (list (resolved string)) :=
  let* fs := get_files in
  while_true (fun entryFiles : list (resolved string) =>
    let* entryFile :=
      kept (text
        (if Nat.ltb 0 (length entryFiles)
         then "Where is the next entry file for " +:+ DQ +:+ packageName +:+ DQ
              +:+ "? (relative to " +:+ packageRoot +:+ ")"
         else "Where is the entry file for " +:+ DQ +:+ packageName +:+ DQ
              +:+ "? (relative to " +:+ packageRoot +:+ ")")
        None
        (fun value =>
           if String.eqb value "" then Some "Entry file is required"
           else
             let fullPath := path_join packageRoot value in
             if negb (fs_existsSync fs fullPath)
             then Some ("Entry file does not exist at " +:+ fullPath)
             else if negb (fs_isFile fs fullPath)
             then Some "Entry file must be a file"
             else if Array_includes entryFiles value
             then Some "You have already added this entry file"
             else None)) in
    let entryFiles := entryFiles ++ [entryFile] in
    let* shouldAddMore :=
      confirm "Do you want to add another entry file for this package?" in
    if negb (answer_truthy shouldAddMore) then ret (inr entryFiles)
    else ret (inl entryFiles)) [].

Definition collectEntryFiles : M (list (resolved string)) :=
  let* fs := get_files in
  while_true (fun entryFiles : list (resolved string) =>
    let* entryFile :=
      kept (text
        (if Nat.ltb 0 (length entryFiles)
         then "Where is your next entry file?"
         else "Where is your entry file?")
        None
        (fun value =>
           if String.eqb value "" then Some "Entry file is required"
           else if negb (fs_existsSync fs value)
           then Some "Entry file does not exist"
           else if negb (fs_isFile fs value)
           then Some "Entry file must be a file"
           else if Array_includes entryFiles value
           then Some "You have already added this entry file"
           else None)) in
    let entryFiles := entryFiles ++ [entryFile] in
    let* shouldAddMore := confirm "Do you want to add another entry file?" in
    if negb (answer_truthy shouldAddMore) then ret (inr entryFiles)
    else ret (inl entryFiles)) [].

(** The two selections return what the prompt resolved to. *)
Definition selectOutputFormats : M (resolved (list string)) :=
  kept (multiselect "Select the output formats" ["esm"; "cjs"; "iife"] true).

Definition selectProductivityPlugins : M (resolved (list string)) :=
  kept (multiselect "Select productivity plugins that make your life easier"
          ["exports"; "unused"] false).

(** The name and the root of a package are used as strings at once: the
    name in the message of the root prompt, the root in the message of the
    first entry prompt. *)
Definition collectWorkspacePackages : M (list PushedPackage) :=
  let* fs := get_files in
  while_true (fun packages : list PushedPackage =>
    let* packageName :=
      text
        (if Nat.ltb 0 (length packages)
         then "Enter the next package name:"
         else "Enter the first package name:")
        None
        (fun value =>
           if String.eqb value "" then Some "Package name is required"
           else if existsb (fun pkg => String.eqb (pushed_name pkg) value) packages
           then Some "Package name already exists"
           else None) in
    let* packageRoot :=
      text
        ("Enter the root directory for " +:+ DQ +:+ packageName +:+ DQ +:+ ":")
        (Some ("packages/" +:+ packageName))
        (fun value =>
           if String.eqb value "" then Some "Package root is required"
           else if negb (fs_existsSync fs value)
           then Some "Package root directory does not exist"
           else if negb (fs_isDirectory fs value)
           then Some "Package root must be a directory"
           else None) in
    let* entryFiles := collectEntryFilesForPackage packageRoot packageName in
    let* outputFormats := selectOutputFormats in
    let packages :=
      packages ++ [{| pushed_name := packageName; pushed_root := packageRoot;
                      pushed_entryFiles := entryFiles;
                      pushed_outputFormats := outputFormats |}] in
    let* shouldAddMore := confirm "Do you want to add another package?" in
    if negb (answer_truthy shouldAddMore) then ret (inr packages)
    else ret (inl packages)) [].

(** *** The configuration renderers *)

Definition quoted (l : list string) : string :=
  join ", " (map (fun file => "'" +:+ file +:+ "'") l).

(** The arrow function mapped over the packages. *)
Definition package_block (pkg : WorkspacePackage) : string :=
  "  {" +:+ LF
  +:+ "    name: '" +:+ name pkg +:+ "'," +:+ LF
  +:+ "    root: '" +:+ root pkg +:+ "'," +:+ LF
  +:+ "    config: {" +:+ LF
  +:+ "      entry: [" +:+ quoted (entryFiles pkg) +:+ "]," +:+ LF
  +:+ "      format: [" +:+ quoted (outputFormats pkg) +:+ "]," +:+ LF
  +:+ "    }," +:+ LF
  +:+ "  }".

Definition createWorkspaceConfigFileContent
    (workspacePackages : list WorkspacePackage) (plugins : list string) : string :=
  let packagesConfig :=
    join ("," +:+ LF) (map package_block workspacePackages) in
  let pluginImports :=
    if Nat.ltb 0 (length plugins)
    then join ", " (map (fun plugin => plugin) plugins) else "" in
  let pluginsConfig :=
    if Nat.ltb 0 (length plugins)
    then "," +:+ LF
         +:+ "  {" +:+ LF
         +:+ "    // Shared configuration applied to all packages" +:+ LF
         +:+ "    plugins: ["
         +:+ join ", " (map (fun plugin => plugin +:+ "()") plugins)
         +:+ "]," +:+ LF
         +:+ "  }"
    else "" in
  let imports :=
    if Nat.ltb 0 (length plugins)
    then "import { defineWorkspace } from 'bunup'" +:+ LF
         +:+ "import { " +:+ pluginImports +:+ " } from 'bunup/plugins'"
    else "import { defineWorkspace } from 'bunup'" in
  imports +:+ LF
  +:+ LF
  +:+ "export default defineWorkspace([" +:+ LF
  +:+ packagesConfig +:+ LF
  +:+ "]" +:+ pluginsConfig +:+ ")" +:+ LF.

Definition createConfigFileContent
    (entryFiles outputFormats plugins : list string) : string :=
  let pluginImports :=
    if Nat.ltb 0 (length plugins)
    then join ", " (map (fun plugin => plugin) plugins) else "" in
  let pluginsConfig :=
    if Nat.ltb 0 (length plugins)
    then "," +:+ LF
         +:+ TAB +:+ "plugins: ["
         +:+ join ", " (map (fun plugin => plugin +:+ "()") plugins)
         +:+ "],"
    else "" in
  let imports :=
    if Nat.ltb 0 (length plugins)
    then "import { defineConfig } from 'bunup'" +:+ LF
         +:+ "import { " +:+ pluginImports +:+ " } from 'bunup/plugins'"
    else "import { defineConfig } from 'bunup'" in
  imports +:+ LF
  +:+ LF
  +:+ "export default defineConfig({" +:+ LF
  +:+ TAB +:+ "entry: [" +:+ quoted entryFiles +:+ "]," +:+ LF
  +:+ TAB +:+ "format: [" +:+ quoted outputFormats +:+ "]," +:+ pluginsConfig +:+ LF
  +:+ "})" +:+ LF.

(** The renderers on what the prompts resolved to.  Of the cancel symbol
    [plugins.length] is [undefined], so each [plugins.length > 0] is false
    and the renderers go the way they go for no plugins.  A cancel symbol
    among the entry files cannot be put in a template literal, and one for
    the formats has no [map]: the renderer throws before anything is
    written. *)
Definition selected_plugins (plugins : resolved (list string)) : list string :=
  match plugins with
  | Value plugins => plugins
  | Symbol => []
  end.

Definition as_WorkspacePackage (pkg : PushedPackage) : option WorkspacePackage :=
  match all_values (pushed_entryFiles pkg), pushed_outputFormats pkg with
  | Some entryFiles, Value outputFormats =>
      Some {| name := pushed_name pkg; root := pushed_root pkg;
              entryFiles := entryFiles; outputFormats := outputFormats |}
  | _, _ => None
  end.

Fixpoint as_WorkspacePackages (pkgs : list PushedPackage)
    : option (list WorkspacePackage) :=
  match pkgs with
  | [] => Some []
  | pkg :: r =>
      match as_WorkspacePackage pkg, as_WorkspacePackages r with
      | Some pkg', Some r' => Some (pkg' :: r')
      | _, _ => None
      end
  end.

Definition generateWorkspaceConfiguration
    (workspacePackages : list PushedPackage) (plugins : resolved (list string))
    : M unit :=
  match as_WorkspacePackages workspacePackages with
  | Some workspacePackages =>
      let configContent :=
        createWorkspaceConfigFileContent workspacePackages
          (selected_plugins plugins) in
      Bun_write "bunup.config.ts" configContent
  | None => TypeError
  end.

Definition generateConfiguration (entryFiles : list (resolved string))
    (outputFormats plugins : resolved (list string)) : M unit :=
  match all_values entryFiles, outputFormats with
  | Some entryFiles, Value outputFormats =>
      Bun_write "bunup.config.ts"
        (createConfigFileContent entryFiles outputFormats
           (selected_plugins plugins))
  | _, _ => TypeError
  end.

(** *** The manifest script merge *)

Definition createWorkspaceBuildScripts : list (string * string) :=
  [("build", "bunup"); ("dev", "bunup --watch")].

Definition createBuildScripts : list (string * string) :=
  [("build", "bunup"); ("dev", "bunup --watch")].

(** A [Record<string, string>] as an object. *)
Definition record_obj (r : list (string * string)) : obj :=
  map (fun kv => (fst kv, JStr (snd kv))) r.

(** [(packageJsonConfig?.scripts ?? {}) as Record<string, string>]; the
    assertion checks nothing, so this is whatever the manifest holds. *)
Definition existingScriptsOf (packageJsonConfig : option obj) : json :=
  match packageJsonConfig with
  | None => JObj []
  | Some config =>
      match obj_get "scripts" config with
      | None | Some JNull => JObj []
      | Some scripts => scripts
      end
  end.

(** [Object.keys(newScripts).filter((script) => existingScripts[script])].
    The keys looked up are [build] and [dev], which no prototype defines,
    so the lookup sees own properties only. *)
Definition conflictingScriptsOf (existingScripts : json)
    (newScripts : list (string * string)) : list string :=
  List.filter (fun script => truthy (obj_get script (own_props existingScripts)))
    (map fst newScripts).

Definition overrideMessage (conflictingScripts : list string) : string :=
  "The " +:+ formatListWithAnd conflictingScripts +:+ " "
  +:+ (if Nat.ltb 1 (length conflictingScripts)
       then "scripts already exist" else "script already exists")
  +:+ " in package.json. Override "
  +:+ (if Nat.ltb 1 (length conflictingScripts) then "them" else "it")
  +:+ "?".

(** What [...packageJsonConfig] copies: the fields of the manifest, or
    nothing when it is [null]. *)
Definition manifest_fields (packageJsonConfig : option obj) : obj :=
  match packageJsonConfig with Some config => config | None => [] end.

(** [{ ...packageJsonConfig, scripts: { ...existingScripts, ...newScripts } }] *)
Definition updatedConfigOf (packageJsonConfig : option obj)
    (newScripts : list (string * string)) : obj :=
  let existingScripts := existingScriptsOf packageJsonConfig in
  obj_set "scripts"
    (JObj (copy_props (record_obj newScripts)
             (copy_props (own_props existingScripts) [])))
    (copy_props (manifest_fields packageJsonConfig) []).

(** The body that [handleBuildScripts] and [handleWorkspaceBuildScripts]
    share word for word; they differ in the script factory only. *)
Definition handleScriptsWith (newScripts : list (string * string))
    (packageJsonPath : string) : M unit :=
  let* pj := loadPackageJson in
  let packageJsonConfig := data pj in
  let existingScripts := existingScriptsOf packageJsonConfig in
  let conflictingScripts := conflictingScriptsOf existingScripts newScripts in
  let write :=
    Bun_write packageJsonPath
      (JSON_stringify (JObj (updatedConfigOf packageJsonConfig newScripts)) 2) in
  if Nat.ltb 0 (length conflictingScripts) then
    let* shouldOverride := confirm (overrideMessage conflictingScripts) in
    if negb (answer_truthy shouldOverride)
    then emit (ELogInfo "Skipped adding build scripts to avoid conflicts.")
    else write
  else write.

Definition handleWorkspaceBuildScripts (packageJsonPath : string) : M unit :=
  handleScriptsWith createWorkspaceBuildScripts packageJsonPath.

Definition handleBuildScripts (packageJsonPath : string) : M unit :=
  handleScriptsWith createBuildScripts packageJsonPath.

(** *** The flow *)

Definition initializeWorkspace (packageJsonPath : string) : M unit :=
  let* workspacePackages := collectWorkspacePackages in
  let* plugins := selectProductivityPlugins in
  run generateWorkspaceConfiguration workspacePackages plugins then
  handleWorkspaceBuildScripts packageJsonPath.

Definition initializeSinglePackage (packageJsonPath : string) : M unit :=
  let* entryFiles := collectEntryFiles in
  let* outputFormats := selectOutputFormats in
  let* plugins := selectProductivityPlugins in
  run generateConfiguration entryFiles outputFormats plugins then
  handleBuildScripts packageJsonPath.

Definition installBunup : M unit :=
  effect (EExec "bun add -d bunup") (exec_shell "bun add -d bunup").

(** The closing summary, without its colours and decorations. *)
Definition showSuccessOutro (isWorkspace : bool) : M unit :=
  let buildCommand :=
    if isWorkspace then "bun run build - Build all packages in your workspace"
    else "bun run build - Build your library" in
  let devCommand :=
    if isWorkspace
    then "bun run dev - Start development mode (watches all packages)"
    else "bun run dev - Start development mode" in
  let filterCommand :=
    if isWorkspace then "bunup --filter core,utils - Build specific packages"
    else "" in
  emit (EOutro ([buildCommand; devCommand]
                ++ if isWorkspace then [filterCommand] else [])).

Definition init : M unit :=
  run emit (EIntro " Initialize bunup in an existing project ") then
  let* pj := loadPackageJson in
  match path pj with
  | None | Some EmptyString =>
      run emit (ELogError "package.json not found") then process_exit 1
  | Some packageJsonPath =>
      let* shouldSetupWorkspace := promptForWorkspace in
      run (if shouldSetupWorkspace
           then initializeWorkspace packageJsonPath
           else initializeSinglePackage packageJsonPath) then
      run emit (ETask "Installing bunup") then
      run installBunup then
      run emit (ETaskDone "Bunup installed") then
      showSuccessOutro shouldSetupWorkspace
  end.

End WithHost.
End Init.

(** ** The earlier init.ts

    The init flow of [src/unnamed/part_001] renders its configuration
    without formats to choose and without plugins. *)

Module EarlierInit.

Record WorkspacePackage := {
  name : string;
  root : string;
  entryFiles : list string;
}.

Definition createWorkspaceConfigContent
    (workspacePackages : list WorkspacePackage) : string :=
  let packagesConfig :=
    join ("," +:+ LF)
      (map (fun pkg =>
              let entryArray :=
                join ", " (map (fun file => "'" +:+ file +:+ "'") (entryFiles pkg)) in
              "  {" +:+ LF
              +:+ "    name: '" +:+ name pkg +:+ "'," +:+ LF
              +:+ "    root: '" +:+ root pkg +:+ "'," +:+ LF
              +:+ "    config: {" +:+ LF
              +:+ "      entry: [" +:+ entryArray +:+ "]," +:+ LF
              +:+ "      format: ['esm', 'cjs']," +:+ LF
              +:+ "    }," +:+ LF
              +:+ "  }")
           workspacePackages) in
  "import { defineWorkspace } from 'bunup'" +:+ LF
  +:+ LF
  +:+ "export default defineWorkspace([" +:+ LF
  +:+ packagesConfig +:+ LF
  +:+ "])" +:+ LF.

(** [options] is [{ entryFiles }]. *)
Definition createSinglePackageConfigContent (entryFiles : list string) : string :=
  let entryArray := join ", " (map (fun file => "'" +:+ file +:+ "'") entryFiles) in
  "import { defineConfig } from 'bunup'" +:+ LF
  +:+ LF
  +:+ "export default defineConfig({" +:+ LF
  +:+ TAB +:+ "entry: [" +:+ entryArray +:+ "]," +:+ LF
  +:+ TAB +:+ "format: ['esm', 'cjs']" +:+ LF
  +:+ "})" +:+ LF.

End EarlierInit.

(** ** create.ts *)

Module Create.
Section WithHost.
Context `{JsNumber} `{!Host}.

Inductive TemplateVariant := basic | full.

Inductive TemplateType := typescript | react.

Definition type_name (t : TemplateType) : string :=
  match t with typescript => "typescript" | react => "react" end.

Record Dir := { dir : string }.

(** [{ basic?: { dir }, full: { dir } }] *)
Record VariantDirs := {
  dirs_basic : option Dir;
  dirs_full : Dir;
}.

(** [{ [key: string]: string }], with the four keys every descriptor
    defines and the flow reads. *)
Record Placeholders := {
  GITHUB_USERNAME : string;
  GITHUB_REPO : string;
  MONOREPO_FIRST_PACKAGE : string;
  DEFAULT_NAME : string;
}.

Record Template := {
  type : TemplateType;
  defaultName : string;
  name : string;
  description : string;
  variants : VariantDirs;
  monorepo : option VariantDirs;
  placeholders : Placeholders;
}.

Definition TEMPLATE_OWNER : string := "bunup".
Definition TEMPLATE_REPO : string := "templates".
Definition MONOREPO_PACKAGES_DIR : string := "packages".

Definition TEMPLATES : list Template :=
  [ {| type := typescript;
       defaultName := "my-ts-lib";
       name := "TypeScript Library";
       description := "A modern TypeScript library template";
       variants := {| dirs_basic := Some {| dir := "ts-lib-basic" |};
                      dirs_full := {| dir := "ts-lib" |} |};
       monorepo := Some {| dirs_basic := Some {| dir := "ts-lib-monorepo-basic" |};
                           dirs_full := {| dir := "ts-lib-monorepo" |} |};
       placeholders := {| GITHUB_USERNAME := "username";
                          GITHUB_REPO := "repo-name";
                          MONOREPO_FIRST_PACKAGE := "package-1";
                          DEFAULT_NAME := "my-ts-lib" |} |};
    {| type := react;
       defaultName := "my-react-lib";
       name := "React Library";
       description := "A modern React component library template";
       variants := {| dirs_basic := Some {| dir := "react-lib-basic" |};
                      dirs_full := {| dir := "react-lib" |} |};
       monorepo := None;
       placeholders := {| GITHUB_USERNAME := "username";
                          GITHUB_REPO := "repo-name";
                          MONOREPO_FIRST_PACKAGE := "package-1";
                          DEFAULT_NAME := "my-react-lib" |} |} ].

(** [map[variant]] *)
Definition dirs_at (map : VariantDirs) (variant : TemplateVariant) : option Dir :=
  match variant with
  | basic => dirs_basic map
  | full => Some (dirs_full map)
  end.

(** [map[variant]?.dir || map.full.dir] *)
Definition dir_or_full (map : VariantDirs) (variant : TemplateVariant) : string :=
  match dirs_at map variant with
  | Some d => if String.eqb (dir d) "" then dir (dirs_full map) else dir d
  | None => dir (dirs_full map)
  end.

Definition getTemplateDir (template : Template) (selectedVariant : TemplateVariant)
    (useMonorepo : bool) : string :=
  match monorepo template with
  | Some monorepoDirs =>
      if useMonorepo then dir_or_full monorepoDirs selectedVariant
      else dir_or_full (variants template) selectedVariant
  | None => dir_or_full (variants template) selectedVariant
  end.

(** The rule as the specification words it, to compare [getTemplateDir]
    with: the directory the map gives for the variant or, when that
    variant key is absent, the one it gives for [full]. *)
Definition specified_template_dir (template : Template)
    (selectedVariant : TemplateVariant) (useMonorepo : bool) : string :=
  let map :=
    match monorepo template with
    | Some monorepoDirs => if useMonorepo then monorepoDirs else variants template
    | None => variants template
    end in
  match dirs_at map selectedVariant with
  | Some d => dir d
  | None => dir (dirs_full map)
  end.

Definition pathExistsSync (fs : gmap string string) (filePath : string) : bool :=
  fs_accessSync fs filePath.

Definition getProjectPath (projectName : string) : string :=
  path_join process_cwd projectName.

(** The validator of the project-name prompt. *)
Definition validateProjectName (fs : gmap string string) (value : string)
    : option string :=
  if String.eqb value "" then Some "Project name is required"
  else if includes " " value then Some "Project name cannot contain spaces"
  else if pathExistsSync fs (getProjectPath value) then Some "Project already exists"
  else None.

(** [projectNameFromCli || (await text({ ... }))] *)
Definition resolveProjectName (template : Template)
    (projectNameFromCli : option string) : M string :=
  match projectNameFromCli with
  | Some (String c r) => ret (String c r)
  | Some EmptyString | None =>
      let* fs := get_files in
      text "Enter the project name" (Some (defaultName template))
        (validateProjectName fs)
  end.

(** [String.prototype.split] with a one-character separator. *)
Fixpoint split_on (sep : ascii) (s : string) : list string :=
  match s with
  | EmptyString => [""]
  | String c r =>
      if Ascii.eqb c sep then "" :: split_on sep r
      else match split_on sep r with
           | [] => [String c ""]
           | x :: xs => String c x :: xs
           end
  end.

(** [getTemplateDir()] on what the variant selection resolved to.  No
    mapping has a property under the cancel symbol, so with it both lookups
    find nothing and fall to the [full] directory, which is what they give
    for [full]. *)
Definition resolvedTemplateDir (template : Template)
    (selectedVariant : resolved TemplateVariant) (useMonorepo : bool) : string :=
  match selectedVariant with
  | Value variant => getTemplateDir template variant useMonorepo
  | Symbol => getTemplateDir template full useMonorepo
  end.

(** The flow.  The patterns of the replacements are kept as the strings
    the regular expressions are built from; the closing summary is kept
    without its decorations.  A cancelled variant selection or a cancelled
    first-package prompt does not stop the flow: the symbol is stored.  The
    first-package symbol is passed to the replacement and then ends the
    flow in [path.join]. *)
Definition createProject (projectNameFromCli : option string) : M unit :=
  run emit (EIntro " Scaffold a new project with Bunup ") then
  let* selectedTemplateType :=
    select "Select a template" (map (fun t => type_name (type t)) TEMPLATES) in
  match List.find (fun t =>
          match selectedTemplateType with
          | Some v => String.eqb (type_name (type t)) v
          | None => false
          end) TEMPLATES with
  | None => run emit (ECancel "Invalid template") then process_exit 1
  | Some template =>
      let* selectedVariant :=
        match dirs_basic (variants template) with
        | Some _ =>
            let* v := select "Choose template variant" ["basic"; "full"] in
            match v with
            | Some "basic" => ret (Value basic)
            | Some _ => ret (Value full)
            | None => ret Symbol
            end
        | None => ret (Value full)
        end in
      let* useMonorepo :=
        match monorepo template with
        | Some _ =>
            let* a := confirm "Do you want to create a monorepo?" in
            ret (answer_truthy a)
        | None => ret false
        end in
      let* projectName := resolveProjectName template projectNameFromCli in
      let projectPath := getProjectPath projectName in
      let* monorepoFirstPackageName :=
        if useMonorepo
        then let* n := kept (text "Enter the name of the first package"
                               (Some (MONOREPO_FIRST_PACKAGE (placeholders template)))
                               (fun _ => None)) in
             ret (Some n)
        else ret None in
      let* githubRepoInfo :=
        text "GitHub username and repo name (username/repo):"
          (Some (GITHUB_USERNAME (placeholders template) +:+ "/"
                 +:+ GITHUB_REPO (placeholders template)))
          (fun _ => None) in
      let parts := split_on "/" githubRepoInfo in
      let githubUsername := nth_error parts 0 in
      let githubRepoName := nth_error parts 1 in
      let templateDir := resolvedTemplateDir template selectedVariant useMonorepo in
      let source :=
        "github:" +:+ TEMPLATE_OWNER +:+ "/" +:+ TEMPLATE_REPO +:+ "/" +:+ templateDir in
      run emit (ETask "Downloading template") then
      run effect (EDownload source projectPath)
            (download_template source projectPath) then
      run emit (ETaskDone "Template downloaded") then
      run emit (ETask "Making the project yours") then
      (* [useMonorepo && monorepoFirstPackageName]: a symbol is truthy *)
      let renamed :=
        match monorepoFirstPackageName with
        | Some (Value (String c r)) =>
            if useMonorepo then Some (Value (String c r)) else None
        | Some Symbol => if useMonorepo then Some Symbol else None
        | _ => None
        end in
      let replacements :=
        [ (GITHUB_REPO (placeholders template), Value githubRepoName);
          (GITHUB_USERNAME (placeholders template), Value githubUsername);
          (DEFAULT_NAME (placeholders template), Value (Some projectName)) ]
        ++ match renamed with
           | Some (Value n) =>
               [(MONOREPO_FIRST_PACKAGE (placeholders template), Value (Some n))]
           | Some Symbol =>
               [(MONOREPO_FIRST_PACKAGE (placeholders template), Symbol)]
           | None => []
           end in
      let glob := path_join projectPath "**/*" in
      let ignore := ["node_modules"; "dist"; "bun.lock"] in
      run effect (EReplace glob replacements ignore)
            (replace_in_file glob replacements ignore) then
      run match renamed with
          | Some Symbol => TypeError
          | Some (Value n) =>
              let oldPackagePath :=
                path_join (path_join projectPath MONOREPO_PACKAGES_DIR)
                  (MONOREPO_FIRST_PACKAGE (placeholders template)) in
              let newPackagePath :=
                path_join (path_join projectPath MONOREPO_PACKAGES_DIR) n in
              let* fs := get_files in
              if pathExistsSync fs oldPackagePath
              then effect (ERename oldPackagePath newPackagePath)
                     (rename_sync oldPackagePath newPackagePath)
              else ret tt
          | None => ret tt
          end then
      run emit (ETaskDone "Project customized") then
      emit (EOutro ["cd " +:+ projectName; "bun install"; "bun run dev"])
  end.

End WithHost.
End Create.

(** ** A small host to run the flows on

    Integers for numbers, and a loader that recognises the manifests of a
    given list by their two-space rendering. *)

Module Sample.

Definition IntegerNumbers : JsNumber :=
  {| number := Z;
     number_truthy := fun z => negb (Z.eqb z 0);
     number_isFinite := fun _ => true;
     number_toString := fun z => NilEmpty.string_of_int (Z.to_int z) |}.

Section Hosts.
#[local] Existing Instance IntegerNumbers.

Definition load (known : list obj) (fs : gmap string string) : PackageJson :=
  match fs !! "package.json" with
  | Some content =>
      {| data := List.find
                   (fun m => String.eqb (JSON_stringify (JObj m) 2) content) known;
         path := Some "package.json" |}
  | None => {| data := None; path := None |}
  end.

Definition host (known : list obj) (dirs : list string) : Host :=
  {| load_package_json := load known;
     fs_existsSync := fun fs p =>
       match fs !! p with Some _ => true | None => existsb (String.eqb p) dirs end;
     fs_isFile := fun fs p => match fs !! p with Some _ => true | None => false end;
     fs_isDirectory := fun fs p => existsb (String.eqb p) dirs;
     fs_accessSync := fun fs p =>
       match fs !! p with Some _ => true | None => existsb (String.eqb p) dirs end;
     path_join := fun a b => a +:+ "/" +:+ b;
     process_cwd := "/work";
     download_template := fun _ _ fs => fs;
     replace_in_file := fun _ _ _ fs => fs;
     rename_sync := fun _ _ fs => fs;
     exec_shell := fun _ fs => fs |}.

Definition on_disk (manifest : obj) : gmap string string :=
  {[ "package.json" := JSON_stringify (JObj manifest) 2 ]}.

Definition manifest_test : obj :=
  [("name", JStr "demo"); ("scripts", JObj [("test", JStr "x")]);
   ("version", JStr "1.0.0")].

Definition manifest_old_build : obj :=
  [("name", JStr "demo"); ("scripts", JObj [("build", JStr "old")]);
   ("version", JStr "1.0.0")].

Definition manifest_empty_build : obj :=
  [("name", JStr "demo"); ("scripts", JObj [("build", JStr "")])].

Definition manifest_scripts_null : obj :=
  [("name", JStr "demo"); ("scripts", JNull)].

(** The manifests the sample loader can read back. *)
Definition known : list obj :=
  [ manifest_test;
    manifest_old_build;
    manifest_empty_build;
    Init.updatedConfigOf (Some manifest_test) Init.createBuildScripts;
    Init.updatedConfigOf (Some manifest_old_build) Init.createBuildScripts;
    Init.updatedConfigOf (Some manifest_empty_build) Init.createBuildScripts;
    manifest_scripts_null ].

Definition demo_host : Host := host known ["packages/core"; "/work/taken"].

Definition world_of (fs : gmap string string) (ks : list key) : world :=
  {| files := fs; keys := ks; out := [] |}.

(** The world a run ended in. *)
Definition after {A} (o : outcome A) : world :=
  match o with
  | Done _ w' => w'
  | Waiting w' | Cancelled w' | Exited _ w' | Diverged w' => w'
  end.

Definition template_empty_basic : Create.Template :=
  {| Create.type := Create.typescript;
     Create.defaultName := "my-ts-lib";
     Create.name := "TypeScript Library";
     Create.description := "A modern TypeScript library template";
     Create.variants :=
       {| Create.dirs_basic := Some {| Create.dir := "" |};
          Create.dirs_full := {| Create.dir := "ts-lib" |} |};
     Create.monorepo := None;
     Create.placeholders :=
       {| Create.GITHUB_USERNAME := "username";
          Create.GITHUB_REPO := "repo-name";
          Create.MONOREPO_FIRST_PACKAGE := "package-1";
          Create.DEFAULT_NAME := "my-ts-lib" |} |}.

(** A descriptor with a monorepo mapping that has [full] only. *)
Definition template_full_monorepo : Create.Template :=
  {| Create.type := Create.typescript;
     Create.defaultName := "my-ts-lib";
     Create.name := "TypeScript Library";
     Create.description := "A modern TypeScript library template";
     Create.variants :=
       {| Create.dirs_basic := Some {| Create.dir := "ts-lib-basic" |};
          Create.dirs_full := {| Create.dir := "ts-lib" |} |};
     Create.monorepo :=
       Some {| Create.dirs_basic := None;
               Create.dirs_full := {| Create.dir := "ts-lib-monorepo" |} |};
     Create.placeholders :=
       {| Create.GITHUB_USERNAME := "username";
          Create.GITHUB_REPO := "repo-name";
          Create.MONOREPO_FIRST_PACKAGE := "package-1";
          Create.DEFAULT_NAME := "my-ts-lib" |} |}.

End Hosts.
End Sample.

(** * Properties *)

(** ** Objects *)

Section ObjectFacts.
Context `{JsNumber}.

Lemma has_own_true (k : string) (o : obj) :
  has_own k o = true <-> In k (Object_keys o).
Proof.
  unfold has_own. rewrite existsb_exists. split.
  - intros [x [Hin Hx]]. apply String.eqb_eq in Hx. now subst.
  - intros Hin. exists k. split; [assumption | apply String.eqb_refl].
Qed.

Lemma has_own_false (k : string) (o : obj) :
  has_own k o = false <-> ~ In k (Object_keys o).
Proof.
  rewrite <- has_own_true. destruct (has_own k o); split; congruence.
Qed.

Lemma obj_get_some_own (k : string) (o : obj) :
  has_own k o = true <-> exists v, obj_get k o = Some v.
Proof.
  induction o as [|[k' v'] r IH]; simpl.
  - split; [discriminate | intros [v Hv]; discriminate].
  - unfold has_own in *. simpl. destruct (String.eqb k k'); simpl.
    + split; eauto.
    + exact IH.
Qed.

Lemma obj_get_none (k : string) (o : obj) :
  obj_get k o = None <-> ~ In k (Object_keys o).
Proof.
  rewrite <- has_own_false. destruct (has_own k o) eqn:E.
  - apply obj_get_some_own in E as [v Hv]. rewrite Hv. split; discriminate.
  - split; [reflexivity | intros _].
    destruct (obj_get k o) eqn:G; [|reflexivity].
    assert (has_own k o = true) by (apply obj_get_some_own; eauto). congruence.
Qed.

Lemma key_before_not_index (k k' : string) :
  array_index k = None -> key_before k k' = false.
Proof. unfold key_before. now intros ->. Qed.

Lemma obj_insert_last (k : string) (v : json) (o : obj) :
  (forall k', In k' (Object_keys o) -> key_before k k' = false) ->
  obj_insert k v o = o ++ [(k, v)].
Proof.
  induction o as [|[k' v'] r IH]; simpl; intros Hb; [reflexivity|].
  rewrite (Hb k') by now left. f_equal. apply IH. intros; apply Hb. now right.
Qed.

Lemma obj_update_keys (k : string) (v : json) (o : obj) :
  Object_keys (obj_update k v o) = Object_keys o.
Proof.
  induction o as [|[k' v'] r IH]; simpl; [reflexivity|].
  destruct (String.eqb k k'); simpl; [reflexivity | now rewrite IH].
Qed.

Lemma obj_update_get_same (k : string) (v : json) (o : obj) :
  In k (Object_keys o) -> obj_get k (obj_update k v o) = Some v.
Proof.
  induction o as [|[k' v'] r IH]; simpl; [tauto|].
  intros [-> | Hin].
  - now rewrite !String.eqb_refl; simpl; rewrite String.eqb_refl.
  - destruct (String.eqb k k') eqn:E; simpl; rewrite E; [reflexivity | auto].
Qed.

Lemma obj_update_get_other (k k' : string) (v : json) (o : obj) :
  k <> k' -> obj_get k' (obj_update k v o) = obj_get k' o.
Proof.
  intros Hne. induction o as [|[k0 v0] r IH]; simpl; [reflexivity|].
  destruct (String.eqb k k0) eqn:E; simpl.
  - apply String.eqb_eq in E. subst k0.
    assert (String.eqb k' k = false) as ->; [|reflexivity].
    apply String.eqb_neq. congruence.
  - now rewrite IH.
Qed.

Lemma obj_update_id (k : string) (v : json) (o : obj) :
  obj_get k o = Some v -> obj_update k v o = o.
Proof.
  induction o as [|[k' v'] r IH]; simpl; [reflexivity|].
  destruct (String.eqb k k'); intros Hg.
  - congruence.
  - now rewrite IH.
Qed.

Lemma obj_get_app (k : string) (o1 o2 : obj) :
  obj_get k (o1 ++ o2) =
  match obj_get k o1 with Some v => Some v | None => obj_get k o2 end.
Proof.
  induction o1 as [|[k' v'] r IH]; simpl; [reflexivity|].
  now destruct (String.eqb k k').
Qed.

(** Setting a key that is no array index: an own key is overwritten where
    it stands, a new key goes last. *)
Lemma obj_set_plain (k : string) (v : json) (o : obj) :
  array_index k = None ->
  obj_set k v o = if has_own k o then obj_update k v o else o ++ [(k, v)].
Proof.
  intros Hk. unfold obj_set. destruct (has_own k o); [reflexivity|].
  apply obj_insert_last. intros. now apply key_before_not_index.
Qed.

Lemma obj_set_get_same (k : string) (v : json) (o : obj) :
  array_index k = None -> obj_get k (obj_set k v o) = Some v.
Proof.
  intros Hk. rewrite obj_set_plain by assumption.
  destruct (has_own k o) eqn:E.
  - apply obj_update_get_same. now apply has_own_true.
  - rewrite obj_get_app. apply has_own_false, obj_get_none in E. rewrite E.
    simpl. now rewrite String.eqb_refl.
Qed.

Lemma obj_set_get_other (k k' : string) (v : json) (o : obj) :
  array_index k = None -> k <> k' ->
  obj_get k' (obj_set k v o) = obj_get k' o.
Proof.
  intros Hk Hne. rewrite obj_set_plain by assumption.
  destruct (has_own k o).
  - now apply obj_update_get_other.
  - rewrite obj_get_app. destruct (obj_get k' o); [reflexivity|]. simpl.
    apply String.eqb_neq in Hne. rewrite String.eqb_sym in Hne. now rewrite Hne.
Qed.

Lemma obj_set_keys (k : string) (v : json) (o : obj) :
  array_index k = None ->
  Object_keys (obj_set k v o) =
  Object_keys o ++ (if has_own k o then [] else [k]).
Proof.
  intros Hk. rewrite obj_set_plain by assumption. destruct (has_own k o).
  - now rewrite obj_update_keys, app_nil_r.
  - unfold Object_keys. now rewrite map_app.
Qed.

Lemma obj_set_id (k : string) (v : json) (o : obj) :
  obj_get k o = Some v -> obj_set k v o = o.
Proof.
  intros Hg. unfold obj_set.
  assert (has_own k o = true) as -> by (apply obj_get_some_own; eauto).
  now apply obj_update_id.
Qed.

Lemma keys_ordered_snoc (ks : list string) (k : string) :
  keys_ordered ks = true -> ~ In k ks ->
  (forall k', In k' ks -> key_before k k' = false) ->
  keys_ordered (ks ++ [k]) = true.
Proof.
  induction ks as [|k0 r IH]; simpl; intros Hwf Hnin Hb; [reflexivity|].
  apply andb_prop in Hwf as [Hwf Hr]. apply andb_prop in Hwf as [Hdup Hord].
  rewrite existsb_app, forallb_app, Hord. simpl.
  rewrite (Hb k0) by now left. simpl. rewrite !andb_true_r, orb_false_r.
  apply negb_true_iff in Hdup. rewrite Hdup. simpl.
  destruct (String.eqb k0 k) eqn:E.
  - apply String.eqb_eq in E. subst. exfalso. apply Hnin. now left.
  - simpl. apply IH; auto.
Qed.

Lemma keys_ordered_split (pre suf : list string) (k : string) :
  keys_ordered (pre ++ k :: suf) = true ->
  ~ In k pre /\ (forall k', In k' pre -> key_before k k' = false).
Proof.
  induction pre as [|k0 r IH]; simpl; intros Hwf; [tauto|].
  apply andb_prop in Hwf as [Hwf Hr]. apply andb_prop in Hwf as [Hdup Hord].
  destruct (IH Hr) as [Hnin Hb]. split.
  - intros [-> | Hin]; [|tauto].
    apply negb_true_iff in Hdup.
    assert (existsb (String.eqb k) (r ++ k :: suf) = true); [|congruence].
    apply existsb_exists. exists k. split; [|apply String.eqb_refl].
    apply in_or_app. right. now left.
  - intros k' [<- | Hin]; [|auto].
    rewrite forallb_forall in Hord.
    specialize (Hord k). rewrite negb_true_iff in Hord. apply Hord.
    apply in_or_app. right. now left.
Qed.

(** Spreading a well-formed object into an empty literal rebuilds it. *)
Lemma copy_props_onto (suf pre : obj) :
  wf_obj (pre ++ suf) = true -> copy_props suf pre = pre ++ suf.
Proof.
  revert pre. induction suf as [|[k v] r IH]; intros pre Hwf; simpl.
  - now rewrite app_nil_r.
  - unfold wf_obj, Object_keys in Hwf. rewrite map_app in Hwf. simpl in Hwf.
    destruct (keys_ordered_split _ _ _ Hwf) as [Hnin Hb].
    assert (obj_set k v pre = pre ++ [(k, v)]) as ->.
    { unfold obj_set.
      assert (has_own k pre = false) as -> by now apply has_own_false.
      now apply obj_insert_last. }
    change (fold_left _ r (pre ++ [(k, v)])) with (copy_props r (pre ++ [(k, v)])).
    rewrite IH; rewrite <- app_assoc; [reflexivity|].
    unfold wf_obj, Object_keys. now rewrite map_app.
Qed.

Lemma copy_props_id (o : obj) : wf_obj o = true -> copy_props o [] = o.
Proof. intros Hwf. now apply (copy_props_onto o []). Qed.

Lemma wf_obj_set_plain (k : string) (v : json) (o : obj) :
  array_index k = None -> wf_obj o = true -> wf_obj (obj_set k v o) = true.
Proof.
  intros Hk Hwf. unfold wf_obj. rewrite obj_set_keys by assumption.
  destruct (has_own k o) eqn:E.
  - now rewrite app_nil_r.
  - apply keys_ordered_snoc; [assumption | now apply has_own_false |].
    intros. now apply key_before_not_index.
Qed.

End ObjectFacts.

(** ** The manifest script merge *)

Section MergeFacts.
Context `{JsNumber} `{!Host}.
Import Init.

(** What one call of the merge does, case by case. *)
Lemma handleScriptsWith_run (newScripts : list (string * string))
    (packageJsonPath : string) (w : world) :
  handleScriptsWith newScripts packageJsonPath w =
  let manifest := data (load_package_json (files w)) in
  let conflicts := conflictingScriptsOf (existingScriptsOf manifest) newScripts in
  let content := JSON_stringify (JObj (updatedConfigOf manifest newScripts)) 2 in
  let asked := out w ++ [EPrompt (overrideMessage conflicts)] in
  match conflicts with
  | [] =>
      Done tt {| files := <[packageJsonPath := content]> (files w);
                 keys := keys w;
                 out := out w ++ [EWrite packageJsonPath content] |}
  | _ :: _ =>
      match keys w with
      | KConfirm false :: r =>
          Done tt {| files := files w; keys := r;
                     out := asked ++ [ELogInfo "Skipped adding build scripts to avoid conflicts."] |}
      | KConfirm true :: r | KCancel :: r =>
          Done tt {| files := <[packageJsonPath := content]> (files w);
                     keys := r;
                     out := asked ++ [EWrite packageJsonPath content] |}
      | _ => Waiting {| files := files w; keys := keys w; out := asked |}
      end
  end.
Proof.
  unfold handleScriptsWith, loadPackageJson, bind. cbn zeta.
  destruct (conflictingScriptsOf _ newScripts) as [|c cs]; [reflexivity|].
  cbn [length Nat.ltb Nat.leb]. unfold confirm.
  destruct (keys w) as [|[s|[|]|v|vs|] r]; reflexivity.
Qed.

(** The workspace flow merges the same scripts in the same way. *)
Lemma handleWorkspaceBuildScripts_same :
  handleWorkspaceBuildScripts = handleBuildScripts.
Proof. reflexivity. Qed.

End MergeFacts.

Section MergeTable.
Context `{JsNumber}.
Import Init.

Lemma build_dev_plain :
  array_index "build" = None /\ array_index "dev" = None
  /\ array_index "scripts" = None.
Proof. repeat split; reflexivity. Qed.

Lemma has_own_set_other (k k' : string) (v : json) (o : obj) :
  array_index k = None -> k <> k' ->
  has_own k' (obj_set k v o) = has_own k' o.
Proof.
  intros Hk Hne. unfold has_own at 1. rewrite obj_set_keys by assumption.
  rewrite existsb_app. fold (has_own k' o).
  destruct (has_own k o); simpl; [apply orb_false_r|].
  apply String.eqb_neq in Hne. rewrite String.eqb_sym in Hne.
  rewrite Hne. simpl. apply orb_false_r.
Qed.

(** [{ ...existingScripts, ...newScripts }] for the two new scripts. *)
Lemma merged_unfold (existing : obj) :
  wf_obj existing = true ->
  copy_props (record_obj createBuildScripts) (copy_props existing []) =
  obj_set "dev" (JStr "bunup --watch") (obj_set "build" (JStr "bunup") existing).
Proof. intros Hwf. now rewrite copy_props_id. Qed.

Lemma merged_wf (existing : obj) :
  wf_obj existing = true ->
  wf_obj (copy_props (record_obj createBuildScripts) (copy_props existing [])) = true.
Proof.
  intros Hwf. rewrite merged_unfold by assumption.
  destruct build_dev_plain as (Hb & Hd & _).
  now repeat apply wf_obj_set_plain.
Qed.

Lemma merged_keys (existing : obj) :
  wf_obj existing = true ->
  Object_keys (copy_props (record_obj createBuildScripts) (copy_props existing [])) =
  Object_keys existing
  ++ List.filter (fun k => negb (has_own k existing)) ["build"; "dev"].
Proof.
  intros Hwf. rewrite merged_unfold by assumption.
  destruct build_dev_plain as (Hb & Hd & _).
  rewrite obj_set_keys by assumption.
  rewrite has_own_set_other by (assumption || discriminate).
  rewrite obj_set_keys by assumption. rewrite <- app_assoc. f_equal.
  simpl. now destruct (has_own "build" existing), (has_own "dev" existing).
Qed.

Lemma merged_get (existing : obj) (k : string) :
  wf_obj existing = true ->
  obj_get k (copy_props (record_obj createBuildScripts) (copy_props existing [])) =
  if String.eqb k "build" then Some (JStr "bunup")
  else if String.eqb k "dev" then Some (JStr "bunup --watch")
  else obj_get k existing.
Proof.
  intros Hwf. rewrite merged_unfold by assumption.
  destruct build_dev_plain as (Hb & Hd & _).
  destruct (String.eqb k "dev") eqn:Ed.
  - apply String.eqb_eq in Ed. subst k. simpl. now apply obj_set_get_same.
  - apply String.eqb_neq in Ed.
    rewrite obj_set_get_other by (assumption || congruence).
    destruct (String.eqb k "build") eqn:Eb.
    + apply String.eqb_eq in Eb. subst k. now apply obj_set_get_same.
    + apply String.eqb_neq in Eb.
      now rewrite obj_set_get_other by (assumption || congruence).
Qed.

Lemma merged_again (existing : obj) :
  wf_obj existing = true ->
  let merged :=
    copy_props (record_obj createBuildScripts) (copy_props existing []) in
  copy_props (record_obj createBuildScripts) (copy_props merged []) = merged.
Proof.
  intros Hwf merged.
  rewrite (copy_props_id merged) by now apply merged_wf.
  simpl. subst merged.
  rewrite (obj_set_id "build") by now rewrite merged_get.
  now rewrite (obj_set_id "dev") by now rewrite merged_get.
Qed.

Lemma updated_scripts (manifest : option obj) :
  obj_get "scripts" (updatedConfigOf manifest createBuildScripts) =
  Some (JObj (copy_props (record_obj createBuildScripts)
                (copy_props (own_props (existingScriptsOf manifest)) []))).
Proof. unfold updatedConfigOf. now apply obj_set_get_same. Qed.

Lemma updated_again (manifest : option obj) :
  wf_obj (manifest_fields manifest) = true ->
  wf_obj (own_props (existingScriptsOf manifest)) = true ->
  let updated := updatedConfigOf manifest createBuildScripts in
  updatedConfigOf (Some updated) createBuildScripts = updated.
Proof.
  intros Hm Hs updated.
  pose proof (updated_scripts manifest) as Hget. fold updated in Hget.
  assert (wf_obj updated = true) as Hu.
  { subst updated. unfold updatedConfigOf.
    rewrite (copy_props_id (manifest_fields manifest)) by assumption.
    apply wf_obj_set_plain; [reflexivity | assumption]. }
  unfold updatedConfigOf at 1. unfold existingScriptsOf at 1. rewrite Hget.
  cbn [own_props manifest_fields].
  rewrite (merged_again (own_props (existingScriptsOf manifest))) by assumption.
  rewrite (copy_props_id updated) by assumption. now apply obj_set_id.
Qed.

End MergeTable.

Section MergeTheorems.
Context `{JsNumber} `{!Host}.
Import Init.

(** C1, as amended.  A new key is classified as conflicting exactly when
    the existing scripts table holds it with a truthy value: for a string
    that is any non-empty string.  A key held with the empty string is not
    classified as conflicting. *)
Theorem conflicting_iff_truthy (scripts : obj) (k : string) :
  In k (conflictingScriptsOf (JObj scripts) createBuildScripts) <->
  (k = "build" \/ k = "dev") /\
  exists v, obj_get k scripts = Some v /\ truthy (Some v) = true.
Proof.
  unfold conflictingScriptsOf. rewrite filter_In. cbn [own_props map fst createBuildScripts In].
  split.
  - intros [[<- | [<- | []]] Ht].
    + split; [now left|]. destruct (obj_get "build" scripts) as [v|] eqn:E; [eauto | discriminate].
    + split; [now right|]. destruct (obj_get "dev" scripts) as [v|] eqn:E; [eauto | discriminate].
  - intros [Hk [v [Hv Ht]]]. rewrite Hv. split; [|assumption].
    destruct Hk as [-> | ->]; auto.
Qed.

(** C2.  When the merge has found a conflicting key and the user answers
    no to its one prompt, the call returns having written nothing: the
    files, and so the manifest the loader reads, are what they were; the
    only output is the prompt and the message that the scripts were
    skipped; and whatever follows the call runs next. *)
Theorem decline_leaves_manifest (packageJsonPath : string) (w : world)
    (r : list key) :
  let manifest := data (load_package_json (files w)) in
  let conflicts :=
    conflictingScriptsOf (existingScriptsOf manifest) createBuildScripts in
  conflicts <> [] ->
  keys w = KConfirm false :: r ->
  exists w' : world,
    handleBuildScripts packageJsonPath w = Done tt w' /\
    files w' = files w /\
    load_package_json (files w') = load_package_json (files w) /\
    keys w' = r /\
    out w' = out w ++ [EPrompt (overrideMessage conflicts);
                       ELogInfo "Skipped adding build scripts to avoid conflicts."] /\
    forall (A : Type) (rest : unit -> M A),
      bind (handleBuildScripts packageJsonPath) rest w = rest tt w'.
Proof.
  intros manifest conflicts Hc Hk. subst conflicts.
  assert (forall (A : Type) (rest : unit -> M A),
            bind (handleBuildScripts packageJsonPath) rest w =
            match handleBuildScripts packageJsonPath w with
            | Done a w' => rest a w'
            | Waiting w' => Waiting w'
            | Cancelled w' => Cancelled w'
            | Exited c w' => Exited c w'
            | Diverged w' => Diverged w'
            end) as Hbind by reflexivity.
  unfold handleBuildScripts in *. rewrite handleScriptsWith_run in *.
  cbn zeta in *. fold manifest in Hbind |- *.
  destruct (conflictingScriptsOf (existingScriptsOf manifest) createBuildScripts)
    as [|c cs] eqn:E; [congruence|].
  rewrite Hk in *. eexists. split; [reflexivity|]. cbn [files keys out].
  repeat split.
  - now rewrite <- app_assoc.
  - intros A rest. now rewrite Hbind.
Qed.

(** C3.  Take a manifest whose [scripts] field is a table.  Whenever the
    merge goes ahead (neither [build] nor [dev] was found conflicting, or
    the user accepted, or left the prompt with Ctrl-C, which the flow takes
    for a yes), the manifest is written back with a scripts table that has
    the keys of that original table first and in their order, followed by
    those of [build] and [dev] the original did not have; [build] and [dev]
    carry the new commands, in place where they existed; every other key
    keeps its value. *)
Theorem merge_result_scripts (packageJsonPath : string) (w : world)
    (config existing : obj) :
  data (load_package_json (files w)) = Some config ->
  obj_get "scripts" config = Some (JObj existing) ->
  wf_obj config = true ->
  wf_obj existing = true ->
  ((truthy (obj_get "build" existing) = false /\
    truthy (obj_get "dev" existing) = false)
   \/ (exists r, keys w = KConfirm true :: r)
   \/ (exists r, keys w = KCancel :: r)) ->
  exists (merged : obj) (w' : world),
    handleBuildScripts packageJsonPath w = Done tt w' /\
    files w' =
      <[packageJsonPath :=
          JSON_stringify (JObj (obj_set "scripts" (JObj merged) config)) 2]>
        (files w) /\
    obj_get "scripts" (obj_set "scripts" (JObj merged) config)
      = Some (JObj merged) /\
    Object_keys merged =
      Object_keys existing
      ++ List.filter (fun k => negb (has_own k existing)) ["build"; "dev"] /\
    forall k,
      obj_get k merged =
      if String.eqb k "build" then Some (JStr "bunup")
      else if String.eqb k "dev" then Some (JStr "bunup --watch")
      else obj_get k existing.
Proof.
  intros Hdata Hscripts Hwfc Hwf Hgo.
  set (merged := copy_props (record_obj createBuildScripts) (copy_props existing [])).
  assert (existingScriptsOf (Some config) = JObj existing) as Hex
    by (unfold existingScriptsOf; now rewrite Hscripts).
  assert (updatedConfigOf (Some config) createBuildScripts
          = obj_set "scripts" (JObj merged) config) as Hup.
  { unfold updatedConfigOf. rewrite Hex. cbn [own_props manifest_fields].
    now rewrite (copy_props_id config). }
  exists merged.
  assert (exists w', handleBuildScripts packageJsonPath w = Done tt w' /\
            files w' =
              <[packageJsonPath :=
                  JSON_stringify (JObj (obj_set "scripts" (JObj merged) config)) 2]>
                (files w))
    as [w' [Hrun Hfiles]].
  { unfold handleBuildScripts. rewrite handleScriptsWith_run. cbn zeta.
    rewrite Hdata, Hup, Hex.
    destruct Hgo as [[Hb Hd] | [[r Hr] | [r Hr]]].
    - unfold conflictingScriptsOf.
      cbn [own_props map fst createBuildScripts List.filter].
      rewrite Hb, Hd. eexists. split; reflexivity.
    - destruct (conflictingScriptsOf _ _); rewrite ?Hr; eexists; split; reflexivity.
    - destruct (conflictingScriptsOf _ _); rewrite ?Hr; eexists; split; reflexivity. }
  exists w'. repeat split; try assumption.
  - now apply obj_set_get_same.
  - now apply merged_keys.
  - intros k. now apply merged_get.
Qed.

(** C4.  A call of the merge that returns has left every file as it was,
    except possibly the manifest; and if the manifest was rewritten, its
    new content is the two-space JSON rendering of an object that has the
    fields of the old manifest in their order, each with its old value,
    save [scripts] (added last when the manifest had none). *)
Theorem merge_keeps_other_fields (packageJsonPath : string) (w w' : world) :
  let manifest := manifest_fields (data (load_package_json (files w))) in
  wf_obj manifest = true ->
  handleBuildScripts packageJsonPath w = Done tt w' ->
  forall file : string,
    files w' !! file = files w !! file \/
    file = packageJsonPath /\
    exists updated : obj,
      files w' !! file = Some (JSON_stringify (JObj updated) 2) /\
      (forall k, k <> "scripts" -> obj_get k updated = obj_get k manifest) /\
      Object_keys updated =
        Object_keys manifest ++ (if has_own "scripts" manifest then [] else ["scripts"]) /\
      JSON_stringify (JObj updated) 2 =
        "{" +:+ LF +:+ "  "
        +:+ join ("," +:+ LF +:+ "  ")
              (map (fun kv => QuoteJSONString (fst kv) +:+ ": "
                              +:+ SerializeJSONProperty "  " "  " (snd kv))
                   updated)
        +:+ LF +:+ "}".
Proof.
  intros manifest Hwf Hrun file.
  set (updated := updatedConfigOf (data (load_package_json (files w))) createBuildScripts).
  assert (files w' = files w \/
          files w' = <[packageJsonPath := JSON_stringify (JObj updated) 2]> (files w))
    as [Hsame | Hwritten].
  { unfold handleBuildScripts in Hrun. rewrite handleScriptsWith_run in Hrun.
    cbn zeta in Hrun. fold updated in Hrun.
    destruct (conflictingScriptsOf _ _).
    - injection Hrun as <-. now right.
    - destruct (keys w) as [|[t|[|]|v|vs|] r]; try discriminate;
        injection Hrun as <-; auto. }
  - left. now rewrite Hsame.
  - destruct (String.eqb_spec file packageJsonPath) as [-> | Hne].
    + right. split; [reflexivity|]. exists updated.
      rewrite Hwritten, lookup_insert_eq. split; [reflexivity|].
      assert (updated = obj_set "scripts"
                (JObj (copy_props (record_obj createBuildScripts)
                         (copy_props (own_props (existingScriptsOf
                            (data (load_package_json (files w))))) [])))
                manifest) as Hu.
      { subst updated. unfold updatedConfigOf. fold manifest.
        now rewrite (copy_props_id manifest). }
      repeat split.
      * intros k Hk. rewrite Hu. now apply obj_set_get_other.
      * rewrite Hu. now apply obj_set_keys.
      * assert (updated <> []) as Hnil.
        { intros E. pose proof (updated_scripts (data (load_package_json (files w)))) as G.
          fold updated in G. rewrite E in G. discriminate. }
        destruct updated as [|kv rest]; [congruence|]. reflexivity.
    + left. rewrite Hwritten. now apply lookup_insert_ne.
Qed.

(** C5.  Under a policy that accepts every conflict, and with a loader
    that reads back the manifest just written, a second call of the merge
    returns with the files exactly as the first call left them. *)
Theorem merge_twice_same (packageJsonPath : string) (w : world) (r : list key) :
  let manifest := data (load_package_json (files w)) in
  let updated := updatedConfigOf manifest createBuildScripts in
  wf_obj (manifest_fields manifest) = true ->
  wf_obj (own_props (existingScriptsOf manifest)) = true ->
  keys w = KConfirm true :: KConfirm true :: r ->
  data (load_package_json
          (<[packageJsonPath := JSON_stringify (JObj updated) 2]> (files w)))
    = Some updated ->
  exists w1 w2 : world,
    handleBuildScripts packageJsonPath w = Done tt w1 /\
    handleBuildScripts packageJsonPath w1 = Done tt w2 /\
    files w2 = files w1 /\
    files w1 !! packageJsonPath = Some (JSON_stringify (JObj updated) 2).
Proof.
  intros manifest updated Hm Hs Hk Hback.
  assert (exists w1, handleBuildScripts packageJsonPath w = Done tt w1 /\
            files w1 = <[packageJsonPath := JSON_stringify (JObj updated) 2]> (files w) /\
            exists r1, keys w1 = KConfirm true :: r1)
    as (w1 & Hrun1 & Hfiles1 & r1 & Hk1).
  { unfold handleBuildScripts. rewrite handleScriptsWith_run. cbn zeta.
    fold manifest. fold updated. rewrite Hk.
    destruct (conflictingScriptsOf _ _); eexists; (split; [reflexivity|]);
      cbn [files keys]; eauto. }
  exists w1.
  assert (updatedConfigOf (Some updated) createBuildScripts = updated) as Hagain
    by now apply updated_again.
  unfold handleBuildScripts at 2. rewrite handleScriptsWith_run. cbn zeta.
  rewrite Hfiles1, Hback, Hagain, Hk1.
  destruct (conflictingScriptsOf _ _); eexists; (split; [eassumption|]);
    (split; [reflexivity|]); cbn [files];
    (split; [now rewrite insert_insert_eq | now rewrite lookup_insert_eq]).
Qed.

(** C6, as amended.  The pair of script entries to install is a constant
    of each mode, and it is the same pair in both: [build] runs [bunup] and
    [dev] runs [bunup --watch]. *)
Theorem build_scripts_same_in_both_modes (isWorkspace : bool) :
  (if isWorkspace then createWorkspaceBuildScripts else createBuildScripts) =
  [("build", "bunup"); ("dev", "bunup --watch")].
Proof. now destruct isWorkspace. Qed.

End MergeTheorems.

(** ** Prompts *)

Section PromptFacts.

Lemma bind_Done {A B} (m : M A) (k : A -> M B) (w w' : world) (b : B) :
  bind m k w = Done b w' ->
  exists a w1, m w = Done a w1 /\ k a w1 = Done b w'.
Proof.
  unfold bind. destruct (m w) as [a w1| | | |]; try discriminate. eauto.
Qed.

Lemma text_loop_Done (validate : string -> option string)
    (defaultValue : option string) (fs : gmap string string) (ks : list key)
    (shown : list event) (answer : string) (w' : world) :
  text_loop validate defaultValue fs ks shown = Done answer w' ->
  exists value,
    validate value = None /\
    answer = (if String.eqb value "" then default "" defaultValue else value) /\
    files w' = fs /\ length (keys w') < length ks /\
    exists evs, out w' = shown ++ evs.
Proof.
  revert shown. induction ks as [|k r IH]; intros shown; simpl; [discriminate|].
  destruct k as [value| | | |]; try discriminate.
  destruct (validate value) as [problem|] eqn:E.
  - intros Hrun. destruct (IH _ Hrun) as (v & Hv & Ha & Hf & Hl & evs & Ho).
    exists v. repeat split; try assumption; [lia|].
    exists (EInvalid problem :: evs). now rewrite Ho, <- app_assoc.
  - intros [= <- <-]. exists value. simpl. repeat split; try assumption; [lia|].
    exists []. now rewrite app_nil_r.
Qed.

Lemma text_loop_stays (validate : string -> option string)
    (defaultValue : option string) (fs : gmap string string) (ks : list key)
    (shown : list event) :
  (forall c w', text_loop validate defaultValue fs ks shown <> Exited c w') /\
  (forall w', text_loop validate defaultValue fs ks shown <> Diverged w').
Proof.
  revert shown. induction ks as [|k r IH]; intros shown; simpl.
  - split; intros; discriminate.
  - destruct k as [value| | | |]; try (split; intros; discriminate).
    destruct (validate value); [apply IH | split; intros; discriminate].
Qed.

End PromptFacts.

(** ** The create flow *)

Section CreateTheorems.
Context `{JsNumber} `{!Host}.
Import Create.

(** What [getTemplateDir] computes on any descriptor: the mapping is the
    monorepo one if monorepo was chosen and the descriptor defines it,
    otherwise the variant one; the result is the directory the mapping
    gives for the variant or, when that variant key is absent or its
    directory is the empty string, the one it gives for [full]. *)
Lemma template_dir_rule (template : Template)
    (selectedVariant : TemplateVariant) (useMonorepo : bool) :
  let map :=
    match monorepo template with
    | Some monorepoDirs => if useMonorepo then monorepoDirs else variants template
    | None => variants template
    end in
  getTemplateDir template selectedVariant useMonorepo =
  match selectedVariant with
  | full => dir (dirs_full map)
  | basic =>
      match dirs_basic map with
      | Some d => if String.eqb (dir d) "" then dir (dirs_full map) else dir d
      | None => dir (dirs_full map)
      end
  end.
Proof.
  unfold getTemplateDir, dir_or_full.
  destruct (monorepo template) as [m|], useMonorepo, selectedVariant; simpl;
    try reflexivity;
    match goal with
    | |- (if String.eqb ?x "" then _ else _) = _ =>
        destruct (String.eqb_spec x ""); congruence
    end.
Qed.

(** Where no variant has an empty directory, [getTemplateDir] is the rule
    of the specification. *)
Lemma template_dir_as_specified (template : Template)
    (selectedVariant : TemplateVariant) (useMonorepo : bool) :
  (forall d, dirs_basic (variants template) = Some d -> dir d <> "") ->
  (forall m d, monorepo template = Some m -> dirs_basic m = Some d -> dir d <> "") ->
  getTemplateDir template selectedVariant useMonorepo =
  specified_template_dir template selectedVariant useMonorepo.
Proof.
  intros Hv Hm. unfold getTemplateDir, specified_template_dir, dir_or_full.
  destruct (monorepo template) as [m|] eqn:E, useMonorepo, selectedVariant;
    cbn [dirs_at];
    repeat match goal with
    | |- context [dirs_basic ?x] => destruct (dirs_basic x) as [d|] eqn:Ed
    | |- context [String.eqb ?x ""] => destruct (String.eqb_spec x "")
    end;
    try reflexivity; try congruence;
    exfalso; first [ now apply (Hv d) | now apply (Hm m d) ].
Qed.

Lemma template_dir_as_specified_for_TEMPLATES (template : Template)
    (selectedVariant : TemplateVariant) (useMonorepo : bool) :
  In template TEMPLATES ->
  getTemplateDir template selectedVariant useMonorepo =
  specified_template_dir template selectedVariant useMonorepo.
Proof.
  intros [<- | [<- | []]]; now destruct selectedVariant, useMonorepo.
Qed.

(** C7.  [getTemplateDir] is a closure over a descriptor of [TEMPLATES],
    and a directory is a name.  For every descriptor of [TEMPLATES], and
    for every descriptor none of whose variants has the empty string for
    its directory, every variant and every monorepo choice: if monorepo was
    chosen and the descriptor defines a monorepo mapping, the result is the
    directory that mapping gives for the variant or, when that variant key
    is absent, the one it gives for [full]; otherwise it is the directory
    the variant mapping gives for the variant or, when absent, the one it
    gives for [full]. *)
Theorem template_dir_follows_rule (template : Template)
    (selectedVariant : TemplateVariant) (useMonorepo : bool) :
  (In template TEMPLATES \/
   ((forall d, dirs_basic (variants template) = Some d -> dir d <> "") /\
    (forall m d, monorepo template = Some m -> dirs_basic m = Some d ->
                 dir d <> ""))) ->
  let map :=
    match monorepo template with
    | Some monorepoDirs => if useMonorepo then monorepoDirs else variants template
    | None => variants template
    end in
  getTemplateDir template selectedVariant useMonorepo =
  match selectedVariant with
  | full => dir (dirs_full map)
  | basic =>
      match dirs_basic map with
      | Some d => dir d
      | None => dir (dirs_full map)
      end
  end.
Proof.
  intros [Hin | [Hv Hm]] map; subst map.
  - rewrite template_dir_as_specified_for_TEMPLATES by assumption.
    unfold specified_template_dir.
    now destruct (monorepo template), useMonorepo, selectedVariant.
  - rewrite template_dir_as_specified by assumption.
    unfold specified_template_dir.
    now destruct (monorepo template), useMonorepo, selectedVariant.
Qed.

Lemma validateProjectName_None (fs : gmap string string) (value : string) :
  validateProjectName fs value = None ->
  value <> "" /\ includes " " value = false /\
  pathExistsSync fs (getProjectPath value) = false.
Proof.
  unfold validateProjectName.
  destruct (String.eqb_spec value ""); [discriminate|].
  destruct (includes " " value); [discriminate|].
  destruct (pathExistsSync fs (getProjectPath value)); [discriminate|].
  auto.
Qed.

(** C9, as amended.  Every project name the create flow goes on with is
    non-empty.  A name that comes from the name prompt moreover contains no
    space character and no path exists for it at the target location.  A
    submission that breaks one of the three rules is answered with the
    message of that rule and the prompt stays open for the next
    submission; the flow is not ended by it. *)
Theorem project_name_rules (template : Template)
    (projectNameFromCli : option string) (w : world) :
  (forall projectName w',
      resolveProjectName template projectNameFromCli w = Done projectName w' ->
      projectName <> "" /\
      (projectNameFromCli = None \/ projectNameFromCli = Some "" ->
       includes " " projectName = false /\
       pathExistsSync (files w) (getProjectPath projectName) = false /\
       files w' = files w)) /\
  (forall value problem,
      validateProjectName (files w) value = Some problem ->
      (value = "" /\ problem = "Project name is required") \/
      (includes " " value = true /\ problem = "Project name cannot contain spaces") \/
      (pathExistsSync (files w) (getProjectPath value) = true /\
       problem = "Project already exists")) /\
  (forall value problem r,
      projectNameFromCli = None \/ projectNameFromCli = Some "" ->
      keys w = KText value :: r ->
      validateProjectName (files w) value = Some problem ->
      resolveProjectName template projectNameFromCli w =
      text_loop (validateProjectName (files w)) (Some (defaultName template))
        (files w) r
        (out w ++ [EPrompt "Enter the project name"; EInvalid problem])) /\
  (forall c w', resolveProjectName template projectNameFromCli w <> Exited c w').
Proof.
  assert (projectNameFromCli = None \/ projectNameFromCli = Some "" ->
          resolveProjectName template projectNameFromCli w =
          text_loop (validateProjectName (files w)) (Some (defaultName template))
            (files w) (keys w) (out w ++ [EPrompt "Enter the project name"]))
    as Hprompt by (intros [-> | ->]; reflexivity).
  split; [|split; [|split]].
  - intros projectName w' Hrun. split.
    + destruct projectNameFromCli as [[|c r]|];
        try (injection Hrun as <- _; discriminate);
        rewrite Hprompt in Hrun by auto;
        apply text_loop_Done in Hrun as (value & Hv & -> & _);
        apply validateProjectName_None in Hv as (Hne & _);
        apply String.eqb_neq in Hne; now rewrite Hne; apply String.eqb_neq.
    + intros Hcli. rewrite Hprompt in Hrun by assumption.
      apply text_loop_Done in Hrun as (value & Hv & -> & Hf & _).
      apply validateProjectName_None in Hv as (Hne & Hs & He).
      apply String.eqb_neq in Hne. now rewrite Hne.
  - intros value problem. unfold validateProjectName.
    destruct (String.eqb_spec value ""); [intros [= <-]; auto|].
    destruct (includes " " value); [intros [= <-]; auto|].
    destruct (pathExistsSync (files w) (getProjectPath value)); [|discriminate].
    intros [= <-]. auto.
  - intros value problem r Hcli Hk Hv. rewrite Hprompt by assumption.
    rewrite Hk. simpl. rewrite Hv. now rewrite <- app_assoc.
  - intros c w'. destruct projectNameFromCli as [[|a r]|]; simpl;
      try discriminate; apply text_loop_stays.
Qed.

End CreateTheorems.

(** ** Strings *)

Section StringFacts.

#[local] Arguments String.append !s1 s2 : simpl nomatch.

Lemma append_assoc (a b c : string) : (a +:+ b) +:+ c = a +:+ (b +:+ c).
Proof. induction a as [|x a IH]; cbn; [reflexivity | now rewrite IH]. Qed.

Lemma prefix_nil (a : string) : String.prefix "" a = true.
Proof. now destruct a. Qed.

Lemma prefix_cons (x y : ascii) (n a : string) :
  String.prefix (String x n) (String y a) =
  if ascii_dec x y then String.prefix n a else false.
Proof. reflexivity. Qed.

Lemma prefix_app_l (n a b : string) :
  String.prefix n a = true -> String.prefix n (a +:+ b) = true.
Proof.
  revert a. induction n as [|x n IH]; intros a; [intros; apply prefix_nil|].
  destruct a as [|y a]; [discriminate|].
  cbn [String.append]. rewrite !prefix_cons.
  destruct (ascii_dec x y); [apply IH | discriminate].
Qed.

Lemma includes_cons (n : string) (y : ascii) (a : string) :
  includes n (String y a) = String.prefix n (String y a) || includes n a.
Proof. reflexivity. Qed.

Lemma includes_app_l (n a b : string) :
  includes n a = true -> includes n (a +:+ b) = true.
Proof.
  induction a as [|y a IH].
  - cbn. rewrite orb_false_r. intros Hp.
    destruct n; [destruct b; reflexivity | discriminate].
  - cbn [String.append]. rewrite !includes_cons. intros Hi.
    apply orb_true_iff in Hi as [Hp | Hi].
    + apply (prefix_app_l n (String y a) b) in Hp. cbn [String.append] in Hp.
      now rewrite Hp.
    + rewrite IH by assumption. apply orb_true_r.
Qed.

Lemma includes_app_r (n a b : string) :
  includes n b = true -> includes n (a +:+ b) = true.
Proof.
  intros Hi. induction a as [|y a IH]; [assumption|].
  cbn [String.append]. rewrite includes_cons, IH. apply orb_true_r.
Qed.

Lemma prefix_sep (c : ascii) (n a b : string) :
  has_char c n = false ->
  String.prefix n (a +:+ String c b) = String.prefix n a.
Proof.
  revert a. induction n as [|x n IH]; intros a Hc.
  - now rewrite !prefix_nil.
  - cbn in Hc. apply orb_false_iff in Hc as [Hx Hn].
    destruct a as [|y a]; cbn [String.append].
    + rewrite prefix_cons. destruct (ascii_dec x c) as [->|]; [|reflexivity].
      now rewrite Ascii.eqb_refl in Hx.
    + rewrite !prefix_cons. destruct (ascii_dec x y); [now apply IH | reflexivity].
Qed.

(** A needle that lacks the character [c] cannot lie across a [c]. *)
Lemma includes_sep (c : ascii) (n a b : string) :
  n <> "" -> has_char c n = false ->
  includes n (a +:+ String c b) = includes n a || includes n b.
Proof.
  intros Hne Hc. induction a as [|y a IH].
  - cbn [String.append]. rewrite includes_cons.
    change (String c b) with ("" +:+ String c b) at 1.
    rewrite (prefix_sep c n "" b) by assumption.
    destruct n; [congruence | reflexivity].
  - cbn [String.append]. rewrite !includes_cons.
    change (String y (a +:+ String c b)) with (String y a +:+ String c b).
    rewrite (prefix_sep c n (String y a) b) by assumption.
    rewrite IH. now rewrite orb_assoc.
Qed.

Lemma includes_glue (n : string) (parts : list (string * ascii)) (last : string) :
  n <> "" ->
  forallb (fun pc => negb (has_char (snd pc) n)) parts = true ->
  includes n (glue parts last) =
  existsb (fun pc => includes n (fst pc)) parts || includes n last.
Proof.
  intros Hne. induction parts as [|[piece c] r IH]; intros Hc; [reflexivity|].
  cbn in Hc. apply andb_prop in Hc as [Hc Hr]. apply negb_true_iff in Hc.
  cbn [glue existsb fst]. rewrite includes_sep by assumption.
  rewrite IH by assumption. now rewrite orb_assoc.
Qed.

End StringFacts.

(** ** The configuration renderers *)

Section RenderTheorems.
Import Init.

#[local] Arguments String.append !s1 s2 : simpl nomatch.

Lemma quoted_cons2 (x y : string) (r : list string) :
  quoted (x :: y :: r) =
  glue [("", "'"%char); (x, "'"%char); ("", ","%char); ("", " "%char)] (quoted (y :: r)).
Proof.
  unfold quoted. cbn [map join glue]. now rewrite !append_assoc.
Qed.

Lemma quoted_free (l : list string) :
  (forall x, In x l -> includes "plugins" x = false) ->
  includes "plugins" (quoted l) = false.
Proof.
  induction l as [|x r IH]; intros Hfree; [reflexivity|].
  destruct r as [|y r].
  - change (quoted [x]) with (glue [("", "'"%char); (x, "'"%char)] "").
    rewrite includes_glue by (discriminate || reflexivity).
    cbn [existsb fst]. rewrite (Hfree x) by now left. reflexivity.
  - rewrite quoted_cons2.
    rewrite includes_glue by (discriminate || reflexivity).
    cbn [existsb fst]. rewrite (Hfree x) by now left.
    rewrite IH by (intros; apply Hfree; now right). reflexivity.
Qed.

Lemma config_without_plugins (entryFiles outputFormats : list string) :
  createConfigFileContent entryFiles outputFormats [] =
  glue [ ("import { defineConfig } from 'bunup'" +:+ LF +:+ LF
          +:+ "export default defineConfig({" +:+ LF +:+ TAB +:+ "entry: ", "["%char);
         (quoted entryFiles, "]"%char);
         ("," +:+ LF +:+ TAB +:+ "format: ", "["%char);
         (quoted outputFormats, "]"%char) ]
       ("," +:+ LF +:+ "})" +:+ LF).
Proof. reflexivity. Qed.

Lemma config_with_plugins (entryFiles outputFormats : list string)
    (p : string) (ps : list string) :
  createConfigFileContent entryFiles outputFormats (p :: ps) =
  ("import { defineConfig } from 'bunup'" +:+ LF
   +:+ "import { " +:+ join ", " (p :: ps) +:+ " } from 'bunup/plugins'")
  +:+ LF +:+ LF
  +:+ "export default defineConfig({" +:+ LF
  +:+ TAB +:+ "entry: [" +:+ quoted entryFiles +:+ "]," +:+ LF
  +:+ TAB +:+ "format: [" +:+ quoted outputFormats +:+ "],"
  +:+ ("," +:+ LF +:+ TAB +:+ "plugins: ["
       +:+ join ", " (map (fun plugin => plugin +:+ "()") (p :: ps)) +:+ "],")
  +:+ LF +:+ "})" +:+ LF.
Proof.
  unfold createConfigFileContent. cbn [length Nat.ltb Nat.leb].
  now rewrite map_id.
Qed.

Lemma config_marker (entryFiles outputFormats plugins : list string) :
  (forall x, In x (entryFiles ++ outputFormats) -> includes "plugins" x = false) ->
  includes "plugins" (createConfigFileContent entryFiles outputFormats plugins) = true
  <-> plugins <> [].
Proof.
  intros Hfree. destruct plugins as [|p ps].
  - rewrite config_without_plugins.
    rewrite includes_glue by (discriminate || reflexivity).
    cbn [existsb fst].
    rewrite !quoted_free by (intros; apply Hfree, in_or_app; auto).
    split; [discriminate | congruence].
  - rewrite config_with_plugins. split; [discriminate | intros _].
    apply includes_app_l. do 4 apply includes_app_r. reflexivity.
Qed.

Lemma block_free (pkg : WorkspacePackage) :
  includes "plugins" (name pkg) = false ->
  includes "plugins" (root pkg) = false ->
  (forall x, In x (entryFiles pkg ++ outputFormats pkg) ->
             includes "plugins" x = false) ->
  includes "plugins" (package_block pkg) = false.
Proof.
  intros Hn Hr Hfree.
  change (package_block pkg) with
    (glue [ ("  {" +:+ LF +:+ "    name: ", "'"%char);
            (name pkg, "'"%char);
            ("," +:+ LF +:+ "    root: ", "'"%char);
            (root pkg, "'"%char);
            ("," +:+ LF +:+ "    config: {" +:+ LF +:+ "      entry: ", "["%char);
            (quoted (entryFiles pkg), "]"%char);
            ("," +:+ LF +:+ "      format: ", "["%char);
            (quoted (outputFormats pkg), "]"%char) ]
          ("," +:+ LF +:+ "    }," +:+ LF +:+ "  }")).
  rewrite includes_glue by (discriminate || reflexivity).
  cbn [existsb fst]. rewrite Hn, Hr.
  rewrite !quoted_free by (intros; apply Hfree, in_or_app; auto).
  reflexivity.
Qed.

Lemma blocks_free (pkgs : list WorkspacePackage) :
  (forall pkg, In pkg pkgs ->
     includes "plugins" (name pkg) = false /\
     includes "plugins" (root pkg) = false /\
     forall x, In x (entryFiles pkg ++ outputFormats pkg) ->
               includes "plugins" x = false) ->
  includes "plugins" (join ("," +:+ LF) (map package_block pkgs)) = false.
Proof.
  induction pkgs as [|x r IH]; intros Hfree; [reflexivity|].
  assert (includes "plugins" (package_block x) = false) as Hx
    by (destruct (Hfree x) as (? & ? & ?); [now left | now apply block_free]).
  destruct r as [|y r]; [exact Hx|].
  change (join ("," +:+ LF) (map package_block (x :: y :: r))) with
    (glue [(package_block x, ","%char); ("", ascii_of_nat 10)]
          (join ("," +:+ LF) (map package_block (y :: r)))).
  rewrite includes_glue by (discriminate || reflexivity).
  cbn [existsb fst]. rewrite Hx, IH by (intros; apply Hfree; now right).
  reflexivity.
Qed.

Lemma workspace_without_plugins (pkgs : list WorkspacePackage) :
  createWorkspaceConfigFileContent pkgs [] =
  glue [ ("import { defineWorkspace } from 'bunup'" +:+ LF +:+ LF
          +:+ "export default defineWorkspace([", ascii_of_nat 10);
         (join ("," +:+ LF) (map package_block pkgs), ascii_of_nat 10) ]
       ("])" +:+ LF).
Proof. reflexivity. Qed.

Lemma workspace_with_plugins (pkgs : list WorkspacePackage)
    (p : string) (ps : list string) :
  createWorkspaceConfigFileContent pkgs (p :: ps) =
  ("import { defineWorkspace } from 'bunup'" +:+ LF
   +:+ "import { " +:+ join ", " (p :: ps) +:+ " } from 'bunup/plugins'")
  +:+ LF +:+ LF
  +:+ "export default defineWorkspace([" +:+ LF
  +:+ join ("," +:+ LF) (map package_block pkgs) +:+ LF
  +:+ "]"
  +:+ ("," +:+ LF +:+ "  {" +:+ LF
       +:+ "    // Shared configuration applied to all packages" +:+ LF
       +:+ "    plugins: ["
       +:+ join ", " (map (fun plugin => plugin +:+ "()") (p :: ps))
       +:+ "]," +:+ LF +:+ "  }")
  +:+ ")" +:+ LF.
Proof.
  unfold createWorkspaceConfigFileContent. cbn [length Nat.ltb Nat.leb].
  now rewrite map_id.
Qed.

Lemma workspace_marker (pkgs : list WorkspacePackage) (plugins : list string) :
  (forall pkg, In pkg pkgs ->
     includes "plugins" (name pkg) = false /\
     includes "plugins" (root pkg) = false /\
     forall x, In x (entryFiles pkg ++ outputFormats pkg) ->
               includes "plugins" x = false) ->
  includes "plugins" (createWorkspaceConfigFileContent pkgs plugins) = true
  <-> plugins <> [].
Proof.
  intros Hfree. destruct plugins as [|p ps].
  - rewrite workspace_without_plugins.
    rewrite includes_glue by (discriminate || reflexivity).
    cbn [existsb fst]. rewrite blocks_free by assumption.
    split; [discriminate | congruence].
  - rewrite workspace_with_plugins. split; [discriminate | intros _].
    apply includes_app_l. do 4 apply includes_app_r. reflexivity.
Qed.

(** C8.  Both renderers emit the plugin import line and the plugins block
    exactly when at least one plugin was selected, and nothing in their
    place otherwise.  So, when no entry, format, name or root itself
    contains the word, the output contains [plugins] if and only if a
    plugin was selected.  For the entry [src/index.ts], the formats [esm]
    and [cjs] and no plugin, the output is the import of [defineConfig], the
    one quoted entry and the two quoted formats. *)
Theorem plugins_emitted_iff_selected :
  (forall entryFiles outputFormats plugins : list string,
      createConfigFileContent entryFiles outputFormats plugins =
      "import { defineConfig } from 'bunup'"
      +:+ match plugins with
          | [] => ""
          | _ :: _ =>
              LF +:+ "import { " +:+ join ", " plugins +:+ " } from 'bunup/plugins'"
          end
      +:+ LF +:+ LF
      +:+ "export default defineConfig({" +:+ LF
      +:+ TAB +:+ "entry: ["
      +:+ join ", " (map (fun file => "'" +:+ file +:+ "'") entryFiles)
      +:+ "]," +:+ LF
      +:+ TAB +:+ "format: ["
      +:+ join ", " (map (fun format => "'" +:+ format +:+ "'") outputFormats)
      +:+ "],"
      +:+ match plugins with
          | [] => ""
          | _ :: _ =>
              "," +:+ LF +:+ TAB +:+ "plugins: ["
              +:+ join ", " (map (fun plugin => plugin +:+ "()") plugins) +:+ "],"
          end
      +:+ LF +:+ "})" +:+ LF) /\
  (forall entryFiles outputFormats plugins : list string,
      (forall x, In x (entryFiles ++ outputFormats) ->
                 includes "plugins" x = false) ->
      includes "plugins"
        (createConfigFileContent entryFiles outputFormats plugins) = true
      <-> plugins <> []) /\
  (forall (workspacePackages : list WorkspacePackage) (plugins : list string),
      createWorkspaceConfigFileContent workspacePackages plugins =
      "import { defineWorkspace } from 'bunup'"
      +:+ match plugins with
          | [] => ""
          | _ :: _ =>
              LF +:+ "import { " +:+ join ", " plugins +:+ " } from 'bunup/plugins'"
          end
      +:+ LF +:+ LF
      +:+ "export default defineWorkspace([" +:+ LF
      +:+ join ("," +:+ LF) (map package_block workspacePackages) +:+ LF
      +:+ "]"
      +:+ match plugins with
          | [] => ""
          | _ :: _ =>
              "," +:+ LF +:+ "  {" +:+ LF
              +:+ "    // Shared configuration applied to all packages" +:+ LF
              +:+ "    plugins: ["
              +:+ join ", " (map (fun plugin => plugin +:+ "()") plugins)
              +:+ "]," +:+ LF +:+ "  }"
          end
      +:+ ")" +:+ LF) /\
  (forall (workspacePackages : list WorkspacePackage) (plugins : list string),
      (forall pkg, In pkg workspacePackages ->
         includes "plugins" (name pkg) = false /\
         includes "plugins" (root pkg) = false /\
         forall x, In x (entryFiles pkg ++ outputFormats pkg) ->
                   includes "plugins" x = false) ->
      includes "plugins"
        (createWorkspaceConfigFileContent workspacePackages plugins) = true
      <-> plugins <> []) /\
  createConfigFileContent ["src/index.ts"] ["esm"; "cjs"] [] =
    "import { defineConfig } from 'bunup'" +:+ LF
    +:+ LF
    +:+ "export default defineConfig({" +:+ LF
    +:+ TAB +:+ "entry: ['src/index.ts']," +:+ LF
    +:+ TAB +:+ "format: ['esm', 'cjs']," +:+ LF
    +:+ "})" +:+ LF /\
  includes "plugins"
    (createConfigFileContent ["src/index.ts"] ["esm"; "cjs"] []) = false.
Proof.
  split; [|split; [|split; [|split; [|split]]]].
  - intros e f [|p ps]; [reflexivity|].
    rewrite config_with_plugins. now rewrite !append_assoc.
  - apply config_marker.
  - intros pkgs [|p ps]; [reflexivity|].
    rewrite workspace_with_plugins. now rewrite !append_assoc.
  - apply workspace_marker.
  - reflexivity.
  - reflexivity.
Qed.

End RenderTheorems.

(** ** Loops *)

Section LoopFacts.

Lemma consumes_keeps {A} (m : M A) : consumes m -> keeps m.
Proof. intros Hm w a w' Hrun. apply Hm in Hrun. lia. Qed.

Lemma keeps_ret {A} (a : A) : keeps (ret a).
Proof. intros w b w' [= _ <-]. lia. Qed.

Lemma steady_ret {A} (a : A) : steady (ret a).
Proof. intros w w'. discriminate. Qed.

Lemma keeps_get_files : keeps get_files.
Proof. intros w b w' [= _ <-]. lia. Qed.

Lemma steady_get_files : steady get_files.
Proof. intros w w'. discriminate. Qed.

Lemma consumes_bind_l {A B} (m : M A) (k : A -> M B) :
  consumes m -> (forall a, keeps (k a)) -> consumes (bind m k).
Proof.
  intros Hm Hk w b w' Hrun. apply bind_Done in Hrun as (a & w1 & H1 & H2).
  apply Hm in H1. apply Hk in H2. lia.
Qed.

Lemma consumes_bind_r {A B} (m : M A) (k : A -> M B) :
  keeps m -> (forall a, consumes (k a)) -> consumes (bind m k).
Proof.
  intros Hm Hk w b w' Hrun. apply bind_Done in Hrun as (a & w1 & H1 & H2).
  apply Hm in H1. apply Hk in H2. lia.
Qed.

Lemma keeps_bind {A B} (m : M A) (k : A -> M B) :
  keeps m -> (forall a, keeps (k a)) -> keeps (bind m k).
Proof.
  intros Hm Hk w b w' Hrun. apply bind_Done in Hrun as (a & w1 & H1 & H2).
  apply Hm in H1. apply Hk in H2. lia.
Qed.

Lemma steady_bind {A B} (m : M A) (k : A -> M B) :
  steady m -> (forall a, steady (k a)) -> steady (bind m k).
Proof.
  intros Hm Hk w w'. unfold bind. destruct (m w) as [a w1| | | |] eqn:E;
    try discriminate; [apply Hk | now apply Hm in E].
Qed.

Lemma consumes_text (message : string) (defaultValue : option string)
    (validate : string -> option string) :
  consumes (text message defaultValue validate).
Proof.
  intros w a w' Hrun. unfold text in Hrun.
  now apply text_loop_Done in Hrun as (_ & _ & _ & _ & Hl & _).
Qed.

Lemma steady_text (message : string) (defaultValue : option string)
    (validate : string -> option string) :
  steady (text message defaultValue validate).
Proof. intros w w'. apply text_loop_stays. Qed.

Lemma consumes_confirm (message : string) : consumes (confirm message).
Proof.
  intros w a w'. unfold confirm.
  destruct (keys w) as [|[t|b|v|vs|] r]; try discriminate;
    intros [= _ <-]; simpl; lia.
Qed.

Lemma steady_confirm (message : string) : steady (confirm message).
Proof.
  intros w w'. unfold confirm.
  destruct (keys w) as [|[t|b|v|vs|] r]; discriminate.
Qed.

Lemma multiselect_loop_Done (options : list string) (required : bool)
    (fs : gmap string string) (ks : list key) (shown : list event)
    (vs : list string) (w' : world) :
  multiselect_loop options required fs ks shown = Done vs w' ->
  length (keys w') < length ks.
Proof.
  revert shown. induction ks as [|k r IH]; intros shown; simpl; [discriminate|].
  destruct k as [t|b|v|us|]; try discriminate.
  destruct (negb _); [discriminate|].
  destruct (required && _).
  - intros Hrun. apply IH in Hrun. lia.
  - intros [= _ <-]. simpl. lia.
Qed.

Lemma consumes_multiselect (message : string) (options : list string)
    (required : bool) :
  consumes (multiselect message options required).
Proof.
  intros w a w' Hrun. unfold multiselect in Hrun.
  now apply multiselect_loop_Done in Hrun.
Qed.

Lemma steady_multiselect (message : string) (options : list string)
    (required : bool) :
  steady (multiselect message options required).
Proof.
  intros w w'. unfold multiselect. generalize (out w ++ [EPrompt message]).
  induction (keys w) as [|k r IH]; intros shown; simpl; [discriminate|].
  destruct k as [t|b|v|us|]; try discriminate.
  destruct (negb _); [discriminate|].
  destruct (required && _); [apply IH | discriminate].
Qed.

(** What holds of every state of a loop holds of its result. *)
Lemma loop_invariant {St R} (P : St -> Prop) (Q : R -> Prop)
    (body : St -> M (St + R)) :
  (forall s w x w', P s -> body s w = Done x w' ->
     match x with inl s' => P s' | inr r => Q r end) ->
  forall fuel s w r w', P s -> loop fuel body s w = Done r w' -> Q r.
Proof.
  intros Hbody. induction fuel as [|n IH]; intros s w r w' Hs; simpl;
    [discriminate|].
  destruct (body s w) as [[s'|r'] w1| | | |] eqn:E; try discriminate.
  - apply (IH s' w1 r w'). exact (Hbody _ _ _ _ Hs E).
  - intros [= <- <-]. exact (Hbody _ _ _ _ Hs E).
Qed.

Lemma loop_consumes {St R} (body : St -> M (St + R)) :
  (forall s, consumes (body s)) ->
  forall fuel s, consumes (loop fuel body s).
Proof.
  intros Hbody. induction fuel as [|n IH]; intros s w r w'; simpl;
    [discriminate|].
  destruct (body s w) as [[s'|r'] w1| | | |] eqn:E; try discriminate.
  - intros Hrun. apply IH in Hrun. apply Hbody in E. lia.
  - intros [= <- <-]. now apply Hbody in E.
Qed.

(** A loop whose every round uses up a key never hits a bound above the
    number of keys. *)
Lemma loop_enough {St R} (body : St -> M (St + R)) :
  (forall s, consumes (body s)) -> (forall s, steady (body s)) ->
  forall fuel s w w', length (keys w) < fuel -> loop fuel body s w <> Diverged w'.
Proof.
  intros Hc Hs. induction fuel as [|n IH]; intros s w w' Hlt; [lia|]. simpl.
  destruct (body s w) as [[s'|r'] w1| | | |] eqn:E; try discriminate.
  - apply IH. apply Hc in E. lia.
  - now apply Hs in E.
Qed.

Lemma consumes_while_true {St R} (body : St -> M (St + R)) (s : St) :
  (forall s, consumes (body s)) -> consumes (while_true body s).
Proof. intros Hc w r w'. unfold while_true. now apply loop_consumes. Qed.

Lemma steady_while_true {St R} (body : St -> M (St + R)) (s : St) :
  (forall s, consumes (body s)) -> (forall s, steady (body s)) ->
  steady (while_true body s).
Proof.
  intros Hc Hs w w'. unfold while_true. apply loop_enough; auto.
Qed.

Lemma while_true_invariant {St R} (P : St -> Prop) (Q : R -> Prop)
    (body : St -> M (St + R)) (s : St) (w w' : world) (r : R) :
  (forall s w x w', P s -> body s w = Done x w' ->
     match x with inl s' => P s' | inr r => Q r end) ->
  P s -> while_true body s w = Done r w' -> Q r.
Proof. intros Hbody Hs. unfold while_true. now apply loop_invariant with (P := P). Qed.

End LoopFacts.

(** ** The collection loops *)

Section CollectTheorems.
Context `{JsNumber} `{!Host}.
Import Init.

Lemma text_loop_Cancelled (validate : string -> option string)
    (defaultValue : option string) (fs : gmap string string) (ks : list key)
    (shown : list event) (w' : world) :
  text_loop validate defaultValue fs ks shown = Cancelled w' ->
  files w' = fs /\ length (keys w') < length ks.
Proof.
  revert shown. induction ks as [|k r IH]; intros shown; simpl; [discriminate|].
  destruct k as [value|b|v|vs|]; try discriminate.
  - destruct (validate value); [|discriminate].
    intros Hrun. apply IH in Hrun as [Hf Hl]. split; [assumption | lia].
  - intros [= <-]. simpl. split; [reflexivity | lia].
Qed.

Lemma multiselect_loop_Cancelled (options : list string) (required : bool)
    (fs : gmap string string) (ks : list key) (shown : list event) (w' : world) :
  multiselect_loop options required fs ks shown = Cancelled w' ->
  files w' = fs /\ length (keys w') < length ks.
Proof.
  revert shown. induction ks as [|k r IH]; intros shown; simpl; [discriminate|].
  destruct k as [t|b|v|us|]; try discriminate.
  - destruct (negb _); [discriminate|].
    destruct (required && _); [|discriminate].
    intros Hrun. apply IH in Hrun as [Hf Hl]. split; [assumption | lia].
  - intros [= <-]. simpl. split; [reflexivity | lia].
Qed.

(** A kept prompt returned: it gave a value, or it was cancelled. *)
Lemma kept_Done {A} (prompt : M A) (w w' : world) (r : resolved A) :
  kept prompt w = Done r w' ->
  match r with
  | Value a => prompt w = Done a w'
  | Symbol => prompt w = Cancelled w'
  end.
Proof.
  unfold kept. destruct (prompt w); try discriminate; now intros [= <- <-].
Qed.

Lemma steady_kept {A} (prompt : M A) : steady prompt -> steady (kept prompt).
Proof.
  intros Hp w w'. unfold kept. destruct (prompt w) eqn:E; try discriminate.
  intros [= <-]. now apply Hp in E.
Qed.

Lemma consumes_kept_text (message : string) (defaultValue : option string)
    (validate : string -> option string) :
  consumes (kept (text message defaultValue validate)).
Proof.
  intros w r w' Hrun. apply kept_Done in Hrun. destruct r as [a|].
  - now apply consumes_text in Hrun.
  - unfold text in Hrun. now apply text_loop_Cancelled in Hrun as [_ Hl].
Qed.

Lemma consumes_kept_multiselect (message : string) (options : list string)
    (required : bool) :
  consumes (kept (multiselect message options required)).
Proof.
  intros w r w' Hrun. apply kept_Done in Hrun. destruct r as [a|].
  - now apply consumes_multiselect in Hrun.
  - unfold multiselect in Hrun.
    now apply multiselect_loop_Cancelled in Hrun as [_ Hl].
Qed.

(** One round of an entry-file loop: ask for a file, add what the prompt
    resolved to, ask whether to go on. *)
Lemma entry_round (ask : M (resolved string)) (again : M answer)
    (entryFiles : list (resolved string)) (w w' : world)
    (x : list (resolved string) + list (resolved string)) :
  bind ask (fun entryFile =>
    let entryFiles := entryFiles ++ [entryFile] in
    bind again (fun shouldAddMore =>
      if negb (answer_truthy shouldAddMore) then ret (inr entryFiles)
      else ret (inl entryFiles))) w = Done x w' ->
  match x with inl l => l <> [] | inr l => l <> [] end.
Proof.
  intros Hrun. apply bind_Done in Hrun as (entryFile & w1 & _ & Hrun).
  apply bind_Done in Hrun as (more & w2 & _ & Hrun).
  destruct (negb (answer_truthy more)); injection Hrun as <- _;
    intros E; now apply app_eq_nil in E as [_ E].
Qed.

Lemma entry_round_consumes (message : string) (validate : string -> option string)
    (again : string) (entryFiles : list (resolved string)) :
  consumes (bind (kept (text message None validate)) (fun entryFile =>
    let entryFiles := entryFiles ++ [entryFile] in
    bind (confirm again) (fun shouldAddMore =>
      if negb (answer_truthy shouldAddMore) then ret (inr entryFiles)
      else ret (inl (B := list (resolved string)) entryFiles)))).
Proof.
  apply consumes_bind_l; [apply consumes_kept_text|]. intros entryFile.
  apply keeps_bind; [apply consumes_keeps, consumes_confirm|]. intros more.
  destruct (negb _); apply keeps_ret.
Qed.

Lemma entry_round_steady (message : string) (validate : string -> option string)
    (again : string) (entryFiles : list (resolved string)) :
  steady (bind (kept (text message None validate)) (fun entryFile =>
    let entryFiles := entryFiles ++ [entryFile] in
    bind (confirm again) (fun shouldAddMore =>
      if negb (answer_truthy shouldAddMore) then ret (inr entryFiles)
      else ret (inl (B := list (resolved string)) entryFiles)))).
Proof.
  apply steady_bind; [apply steady_kept, steady_text|]. intros entryFile.
  apply steady_bind; [apply steady_confirm|]. intros more.
  destruct (negb _); apply steady_ret.
Qed.

Lemma collectEntryFiles_nonempty (w w' : world) (l : list (resolved string)) :
  collectEntryFiles w = Done l w' -> l <> [].
Proof.
  unfold collectEntryFiles. intros Hrun.
  apply bind_Done in Hrun as (fs & w1 & _ & Hrun).
  eapply (while_true_invariant (fun _ => True) (fun l => l <> [])) in Hrun;
    [assumption | | exact I].
  intros s w0 x w0' _ Hround. apply entry_round in Hround. now destruct x.
Qed.

Lemma collectEntryFilesForPackage_nonempty (packageRoot packageName : string)
    (w w' : world) (l : list (resolved string)) :
  collectEntryFilesForPackage packageRoot packageName w = Done l w' -> l <> [].
Proof.
  unfold collectEntryFilesForPackage. intros Hrun.
  apply bind_Done in Hrun as (fs & w1 & _ & Hrun).
  eapply (while_true_invariant (fun _ => True) (fun l => l <> [])) in Hrun;
    [assumption | | exact I].
  intros s w0 x w0' _ Hround. apply entry_round in Hround. now destruct x.
Qed.

Lemma collectEntryFiles_steady : steady collectEntryFiles.
Proof.
  apply steady_bind; [apply steady_get_files|]. intros fs.
  apply steady_while_true; intros s;
    [apply entry_round_consumes | apply entry_round_steady].
Qed.

Lemma collectEntryFilesForPackage_consumes (packageRoot packageName : string) :
  consumes (collectEntryFilesForPackage packageRoot packageName).
Proof.
  apply consumes_bind_r; [apply keeps_get_files|]. intros fs.
  apply consumes_while_true. intros s. apply entry_round_consumes.
Qed.

Lemma collectEntryFilesForPackage_steady (packageRoot packageName : string) :
  steady (collectEntryFilesForPackage packageRoot packageName).
Proof.
  apply steady_bind; [apply steady_get_files|]. intros fs.
  apply steady_while_true; intros s;
    [apply entry_round_consumes | apply entry_round_steady].
Qed.

Lemma package_round (packages : list PushedPackage)
    (fs : gmap string string) (w w' : world)
    (x : list PushedPackage + list PushedPackage)
    (askName : M string) (askRoot : string -> M string) (again : M answer) :
  (forall pkg, In pkg packages -> pushed_entryFiles pkg <> []) ->
  bind askName (fun packageName =>
    bind (askRoot packageName) (fun packageRoot =>
      bind (collectEntryFilesForPackage packageRoot packageName) (fun entryFiles =>
        bind selectOutputFormats (fun outputFormats =>
          let packages :=
            packages ++ [{| pushed_name := packageName; pushed_root := packageRoot;
                            pushed_entryFiles := entryFiles;
                            pushed_outputFormats := outputFormats |}] in
          bind again (fun shouldAddMore =>
            if negb (answer_truthy shouldAddMore) then ret (inr packages)
            else ret (inl packages)))))) w = Done x w' ->
  match x with
  | inl ps => forall pkg, In pkg ps -> pushed_entryFiles pkg <> []
  | inr ps => ps <> [] /\ forall pkg, In pkg ps -> pushed_entryFiles pkg <> []
  end.
Proof.
  intros Hinv Hrun.
  apply bind_Done in Hrun as (packageName & w1 & _ & Hrun).
  apply bind_Done in Hrun as (packageRoot & w2 & _ & Hrun).
  apply bind_Done in Hrun as (files & w3 & Hfiles & Hrun).
  apply collectEntryFilesForPackage_nonempty in Hfiles.
  apply bind_Done in Hrun as (formats & w4 & _ & Hrun).
  apply bind_Done in Hrun as (more & w5 & _ & Hrun).
  assert (forall pkg,
            In pkg (packages ++ [{| pushed_name := packageName;
                                    pushed_root := packageRoot;
                                    pushed_entryFiles := files;
                                    pushed_outputFormats := formats |}]) ->
            pushed_entryFiles pkg <> []) as Hall.
  { intros pkg Hin. apply in_app_or in Hin as [Hin | [<- | []]]; auto. }
  destruct (negb (answer_truthy more)); injection Hrun as <- _;
    [split|]; try assumption.
  intros E. now apply app_eq_nil in E as [_ E].
Qed.

Lemma collectWorkspacePackages_nonempty (w w' : world)
    (packages : list PushedPackage) :
  collectWorkspacePackages w = Done packages w' ->
  packages <> [] /\ forall pkg, In pkg packages -> pushed_entryFiles pkg <> [].
Proof.
  unfold collectWorkspacePackages. intros Hrun.
  apply bind_Done in Hrun as (fs & w1 & _ & Hrun).
  eapply (while_true_invariant
            (fun ps => forall pkg, In pkg ps -> pushed_entryFiles pkg <> [])
            (fun ps => ps <> [] /\
                       forall pkg, In pkg ps -> pushed_entryFiles pkg <> []))
    in Hrun; [assumption | | intros pkg []].
  intros s w0 x w0' Hs Hround.
  now apply (package_round s fs) in Hround.
Qed.

Lemma collectWorkspacePackages_steady : steady collectWorkspacePackages.
Proof.
  apply steady_bind; [apply steady_get_files|]. intros fs.
  apply steady_while_true; intros s.
  - apply consumes_bind_l; [apply consumes_text|]. intros packageName.
    apply keeps_bind; [apply consumes_keeps, consumes_text|]. intros packageRoot.
    apply keeps_bind;
      [apply consumes_keeps, collectEntryFilesForPackage_consumes|].
    intros files.
    apply keeps_bind; [apply consumes_keeps, consumes_kept_multiselect|].
    intros formats.
    apply keeps_bind; [apply consumes_keeps, consumes_confirm|]. intros more.
    destruct (negb _); apply keeps_ret.
  - apply steady_bind; [apply steady_text|]. intros packageName.
    apply steady_bind; [apply steady_text|]. intros packageRoot.
    apply steady_bind; [apply collectEntryFilesForPackage_steady|].
    intros files.
    apply steady_bind; [apply steady_kept, steady_multiselect|]. intros formats.
    apply steady_bind; [apply steady_confirm|]. intros more.
    destruct (negb _); apply steady_ret.
Qed.

Lemma handleScriptsWith_out (newScripts : list (string * string))
    (packageJsonPath : string) (w w' : world) :
  handleScriptsWith newScripts packageJsonPath w = Done tt w' ->
  exists evs, out w' = out w ++ evs.
Proof.
  rewrite handleScriptsWith_run. cbn zeta.
  destruct (conflictingScriptsOf _ _).
  - intros [= <-]. cbn [out]. eauto.
  - destruct (keys w) as [|[t|[|]|v|vs|] r]; try discriminate;
      intros [= <-]; cbn [out]; rewrite <- app_assoc; eauto.
Qed.

(** The lists the renderers take have as many items as were pushed. *)
Lemma all_values_nonempty {A} (l : list (resolved A)) (l' : list A) :
  all_values l = Some l' -> l <> [] -> l' <> [].
Proof.
  destruct l as [|[a|] r]; simpl; [congruence | | discriminate].
  destruct (all_values r); [|discriminate]. now intros [= <-] _.
Qed.

Lemma as_WorkspacePackage_entryFiles (pkg : PushedPackage)
    (pkg' : WorkspacePackage) :
  as_WorkspacePackage pkg = Some pkg' ->
  pushed_entryFiles pkg <> [] -> entryFiles pkg' <> [].
Proof.
  unfold as_WorkspacePackage.
  destruct (all_values (pushed_entryFiles pkg)) as [e|] eqn:E; [|discriminate].
  destruct (pushed_outputFormats pkg); [|discriminate].
  intros [= <-]. simpl. now apply all_values_nonempty.
Qed.

Lemma as_WorkspacePackages_nonempty (pkgs : list PushedPackage)
    (pkgs' : list WorkspacePackage) :
  as_WorkspacePackages pkgs = Some pkgs' ->
  (forall pkg, In pkg pkgs -> pushed_entryFiles pkg <> []) ->
  (pkgs <> [] -> pkgs' <> []) /\
  forall pkg', In pkg' pkgs' -> entryFiles pkg' <> [].
Proof.
  revert pkgs'. induction pkgs as [|pkg r IH]; intros pkgs'; simpl.
  - intros [= <-] _. split; [congruence | intros pkg' []].
  - destruct (as_WorkspacePackage pkg) as [pkg1|] eqn:E1; [|discriminate].
    destruct (as_WorkspacePackages r) as [r'|]; [|discriminate].
    intros [= <-] Hall. split; [discriminate|].
    intros pkg' [<- | Hin].
    + apply (as_WorkspacePackage_entryFiles pkg); [assumption|].
      apply Hall. now left.
    + apply (IH r' eq_refl); [|assumption].
      intros p Hp. apply Hall. now right.
Qed.

(** A first answer and a declined second one are enough for an entry-file
    loop to return. *)
Lemma collectEntryFiles_cancelled_once (w : world) (r : list key) :
  keys w = KCancel :: KConfirm false :: r ->
  collectEntryFiles w =
  Done [Symbol]
    {| files := files w; keys := r;
       out := (out w ++ [EPrompt "Where is your entry file?"])
              ++ [EPrompt "Do you want to add another entry file?"] |}.
Proof.
  destruct w as [fs ks o]. simpl. intros ->. reflexivity.
Qed.

Lemma collectEntryFiles_once (w : world) (value : string) (r : list key) :
  keys w = KText value :: KConfirm false :: r ->
  value <> "" ->
  fs_existsSync (files w) value = true ->
  fs_isFile (files w) value = true ->
  collectEntryFiles w =
  Done [Value value]
    {| files := files w; keys := r;
       out := (out w ++ [EPrompt "Where is your entry file?"])
              ++ [EPrompt "Do you want to add another entry file?"] |}.
Proof.
  destruct w as [fs ks o]. simpl. intros -> Hne Hex Hfile.
  unfold collectEntryFiles, while_true, bind, get_files, kept, text. simpl.
  destruct value as [|c value]; [contradiction|]. simpl.
  rewrite Hex, Hfile. reflexivity.
Qed.

Lemma collectEntryFilesForPackage_once (packageRoot packageName : string)
    (w : world) (value : string) (r : list key) :
  keys w = KText value :: KConfirm false :: r ->
  value <> "" ->
  fs_existsSync (files w) (path_join packageRoot value) = true ->
  fs_isFile (files w) (path_join packageRoot value) = true ->
  collectEntryFilesForPackage packageRoot packageName w =
  Done [Value value]
    {| files := files w; keys := r;
       out := (out w ++ [EPrompt ("Where is the entry file for " +:+ DQ
                                  +:+ packageName +:+ DQ +:+ "? (relative to "
                                  +:+ packageRoot +:+ ")")])
              ++ [EPrompt "Do you want to add another entry file for this package?"] |}.
Proof.
  destruct w as [fs ks o]. simpl. intros -> Hne Hex Hfile.
  unfold collectEntryFilesForPackage, while_true, bind, get_files, kept, text.
  simpl.
  destruct value as [|c value]; [contradiction|]. simpl.
  rewrite Hex, Hfile. reflexivity.
Qed.

Lemma bind_run {A B} (m : M A) (k : A -> M B) (w w1 : world) (a : A) :
  m w = Done a w1 -> bind m k w = k a w1.
Proof. unfold bind. now intros ->. Qed.

(** One package with one entry file and a declined second round: the
    package loop returns it. *)
Lemma collectWorkspacePackages_once (w : world) (packageName packageRoot value : string)
    (formats : list string) (r : list key) :
  keys w = KText packageName :: KText packageRoot :: KText value :: KConfirm false
           :: KMulti formats :: KConfirm false :: r ->
  packageName <> "" ->
  packageRoot <> "" ->
  fs_existsSync (files w) packageRoot = true ->
  fs_isDirectory (files w) packageRoot = true ->
  value <> "" ->
  fs_existsSync (files w) (path_join packageRoot value) = true ->
  fs_isFile (files w) (path_join packageRoot value) = true ->
  formats <> [] ->
  forallb (fun v => existsb (String.eqb v) ["esm"; "cjs"; "iife"]) formats = true ->
  exists w',
    collectWorkspacePackages w =
    Done [{| pushed_name := packageName; pushed_root := packageRoot;
             pushed_entryFiles := [Value value];
             pushed_outputFormats := Value formats |}] w' /\
    files w' = files w /\ keys w' = r.
Proof.
  destruct w as [fs ks o]. cbn [files keys out].
  intros -> Hname Hroot Hex Hdir Hvalue Hfex Hfile Hformats Hall.
  unfold collectWorkspacePackages, while_true, bind at 1, get_files.
  cbn [keys length loop].
  apply String.eqb_neq in Hname, Hroot.
  erewrite bind_run.
  2:{ unfold text. cbn [keys files out text_loop length Nat.ltb Nat.leb existsb].
      rewrite Hname. reflexivity. }
  try rewrite Hname.
  erewrite bind_run.
  2:{ unfold text. cbn [keys files out text_loop].
      rewrite Hroot, Hex, Hdir. cbn [negb]. reflexivity. }
  try rewrite Hroot.
  erewrite bind_run.
  2:{ apply collectEntryFilesForPackage_once with (r := KMulti formats :: KConfirm false :: r);
        [reflexivity | assumption..]. }
  cbn [files keys out].
  erewrite bind_run.
  2:{ unfold selectOutputFormats, kept, multiselect.
      cbn [keys files out multiselect_loop]. rewrite Hall. cbn [negb].
      destruct formats as [|f fs']; [contradiction|]. cbn [length Nat.eqb andb].
      reflexivity. }
  cbn [app]. unfold bind, confirm, ret. cbn [keys files out answer_truthy negb].
  eexists. split; [reflexivity|]. split; reflexivity.
Qed.

(** C10.  Each collection loop returns a list with at least one item: the
    entry files of a single package, the entry files of a workspace
    package, and the workspace packages, every one of which has an entry
    file.  An item is what its prompt resolved to, so after Ctrl-C it is
    the cancel symbol; the renderers throw on such a list, and the
    configuration a completed single-package run wrote was rendered from
    at least one entry file, the one a completed workspace run wrote from
    at least one package, each with an entry file.  None of the loops
    outruns the bound of the model, and the loops do return: one answer to
    the entry prompt (a valid file, or Ctrl-C) and a declined second round
    give a list of that one item, and one valid package with one entry file
    and a declined second round give a list of that one package. *)
Theorem collections_never_empty :
  (forall w w' entryFiles,
      collectEntryFiles w = Done entryFiles w' -> entryFiles <> []) /\
  (forall packageRoot packageName w w' entryFiles,
      collectEntryFilesForPackage packageRoot packageName w = Done entryFiles w' ->
      entryFiles <> []) /\
  (forall w w' packages,
      collectWorkspacePackages w = Done packages w' ->
      packages <> [] /\
      forall pkg, In pkg packages -> pushed_entryFiles pkg <> []) /\
  (forall packageJsonPath w w',
      initializeSinglePackage packageJsonPath w = Done tt w' ->
      exists entryFiles outputFormats plugins,
        entryFiles <> [] /\
        In (EWrite "bunup.config.ts"
              (createConfigFileContent entryFiles outputFormats plugins))
           (out w')) /\
  (forall packageJsonPath w w',
      initializeWorkspace packageJsonPath w = Done tt w' ->
      exists packages plugins,
        packages <> [] /\
        (forall pkg, In pkg packages -> entryFiles pkg <> []) /\
        In (EWrite "bunup.config.ts"
              (createWorkspaceConfigFileContent packages plugins))
           (out w')) /\
  (forall w w', collectEntryFiles w <> Diverged w') /\
  (forall packageRoot packageName w w',
      collectEntryFilesForPackage packageRoot packageName w <> Diverged w') /\
  (forall w w', collectWorkspacePackages w <> Diverged w') /\
  (forall w r,
      keys w = KCancel :: KConfirm false :: r ->
      collectEntryFiles w =
      Done [Symbol]
        {| files := files w; keys := r;
           out := (out w ++ [EPrompt "Where is your entry file?"])
                  ++ [EPrompt "Do you want to add another entry file?"] |}) /\
  (forall w value r,
      keys w = KText value :: KConfirm false :: r ->
      value <> "" ->
      fs_existsSync (files w) value = true ->
      fs_isFile (files w) value = true ->
      collectEntryFiles w =
      Done [Value value]
        {| files := files w; keys := r;
           out := (out w ++ [EPrompt "Where is your entry file?"])
                  ++ [EPrompt "Do you want to add another entry file?"] |}) /\
  (forall packageRoot packageName w value r,
      keys w = KText value :: KConfirm false :: r ->
      value <> "" ->
      fs_existsSync (files w) (path_join packageRoot value) = true ->
      fs_isFile (files w) (path_join packageRoot value) = true ->
      exists w',
        collectEntryFilesForPackage packageRoot packageName w
        = Done [Value value] w' /\ keys w' = r) /\
  (forall w packageName packageRoot value formats r,
      keys w = KText packageName :: KText packageRoot :: KText value
               :: KConfirm false :: KMulti formats :: KConfirm false :: r ->
      packageName <> "" ->
      packageRoot <> "" ->
      fs_existsSync (files w) packageRoot = true ->
      fs_isDirectory (files w) packageRoot = true ->
      value <> "" ->
      fs_existsSync (files w) (path_join packageRoot value) = true ->
      fs_isFile (files w) (path_join packageRoot value) = true ->
      formats <> [] ->
      forallb (fun v => existsb (String.eqb v) ["esm"; "cjs"; "iife"]) formats
        = true ->
      exists w',
        collectWorkspacePackages w =
        Done [{| pushed_name := packageName; pushed_root := packageRoot;
                 pushed_entryFiles := [Value value];
                 pushed_outputFormats := Value formats |}] w' /\
        files w' = files w /\ keys w' = r).
Proof.
  repeat match goal with |- _ /\ _ => split end.
  - intros w w' l. apply collectEntryFiles_nonempty.
  - intros r n w w' l. apply collectEntryFilesForPackage_nonempty.
  - intros w w' ps. apply collectWorkspacePackages_nonempty.
  - intros p w w' Hrun. unfold initializeSinglePackage in Hrun.
    apply bind_Done in Hrun as (e & w1 & He & Hrun).
    apply bind_Done in Hrun as (f & w2 & _ & Hrun).
    apply bind_Done in Hrun as (pl & w3 & _ & Hrun).
    apply bind_Done in Hrun as ([] & w4 & Hw & Hrun).
    apply collectEntryFiles_nonempty in He.
    unfold generateConfiguration in Hw.
    destruct (all_values e) as [e'|] eqn:Ee; [|discriminate].
    destruct f as [f|]; [|discriminate].
    injection Hw as <-. apply handleScriptsWith_out in Hrun as [evs Hout].
    exists e', f, (selected_plugins pl).
    split; [now apply (all_values_nonempty e)|]. rewrite Hout. cbn [out].
    apply in_or_app. left. apply in_or_app. right. now left.
  - intros p w w' Hrun. unfold initializeWorkspace in Hrun.
    apply bind_Done in Hrun as (ps & w1 & Hps & Hrun).
    apply bind_Done in Hrun as (pl & w2 & _ & Hrun).
    apply bind_Done in Hrun as ([] & w3 & Hw & Hrun).
    apply collectWorkspacePackages_nonempty in Hps as [Hne Hall].
    unfold generateWorkspaceConfiguration in Hw.
    destruct (as_WorkspacePackages ps) as [ps'|] eqn:Eps; [|discriminate].
    apply as_WorkspacePackages_nonempty in Eps as [Hne' Hall']; [|assumption].
    injection Hw as <-. apply handleScriptsWith_out in Hrun as [evs Hout].
    exists ps', (selected_plugins pl). repeat split; auto. rewrite Hout. cbn [out].
    apply in_or_app. left. apply in_or_app. right. now left.
  - apply collectEntryFiles_steady.
  - intros r n. apply collectEntryFilesForPackage_steady.
  - apply collectWorkspacePackages_steady.
  - apply collectEntryFiles_cancelled_once.
  - apply collectEntryFiles_once.
  - intros pr pn w value r Hk Hne Hex Hfile. eexists. split.
    + now apply collectEntryFilesForPackage_once with (r := r).
    + reflexivity.
  - apply collectWorkspacePackages_once.
Qed.

End CollectTheorems.

(** * Worked runs *)

Section Runs.
Import Sample.
#[local] Existing Instance IntegerNumbers.
#[local] Existing Instance demo_host.

(** C1 as the specification states it fails for a key held with the empty
    string: [build] is in the table and yet not classified as conflicting,
    and the merge overwrites it without asking. *)
Lemma empty_script_not_conflicting :
  let scripts : obj := [("build", JStr "")] in
  ~ (In "build" (Init.conflictingScriptsOf (JObj scripts) Init.createBuildScripts)
     <-> In "build" (Object_keys scripts)) /\
  out (after (Init.handleBuildScripts "package.json"
                (world_of (on_disk manifest_empty_build) []))) =
  [EWrite "package.json"
     (JSON_stringify
        (JObj [("name", JStr "demo");
               ("scripts", JObj [("build", JStr "bunup");
                                 ("dev", JStr "bunup --watch")])]) 2)].
Proof.
  split.
  - intros [_ Hback]. assert (In "build" (Object_keys [("build", JStr "")])) as Hin
      by now left.
    apply Hback in Hin. vm_compute in Hin. exact Hin.
  - vm_compute. reflexivity.
Qed.

Lemma decline_leaves_manifest_witness :
  let w := world_of (on_disk manifest_old_build) [KConfirm false] in
  exists w' : world,
    Init.handleBuildScripts "package.json" w = Done tt w' /\
    files w' = on_disk manifest_old_build /\
    out w' = [EPrompt "The build script already exists in package.json. Override it?";
              ELogInfo "Skipped adding build scripts to avoid conflicts."].
Proof.
  intros w.
  destruct (decline_leaves_manifest "package.json" w [])
    as (w' & Hrun & Hfiles & _ & _ & Hout & _).
  - vm_compute. discriminate.
  - reflexivity.
  - exists w'. repeat split; assumption.
Defined.

Lemma merge_result_scripts_witness :
  let w := world_of (on_disk manifest_test) [] in
  exists w' : world,
    Init.handleBuildScripts "package.json" w = Done tt w' /\
    files w' !! "package.json" =
      Some (JSON_stringify
              (JObj [("name", JStr "demo");
                     ("scripts", JObj [("test", JStr "x");
                                       ("build", JStr "bunup");
                                       ("dev", JStr "bunup --watch")]);
                     ("version", JStr "1.0.0")]) 2).
Proof.
  intros w.
  destruct (merge_result_scripts "package.json" w manifest_test [("test", JStr "x")])
    as (merged & w' & Hrun & Hfiles & _ & Hkeys & Hget).
  - vm_compute. reflexivity.
  - reflexivity.
  - reflexivity.
  - reflexivity.
  - left. split; reflexivity.
  - exists w'. split; [assumption|].
    pose proof (Hget "test") as Htest. pose proof (Hget "build") as Hbuild.
    pose proof (Hget "dev") as Hdev.
    destruct merged as [|[k1 v1] [|[k2 v2] [|[k3 v3] [|kv rest]]]];
      try discriminate Hkeys.
    injection Hkeys as -> -> ->.
    injection Htest as ->. injection Hbuild as ->. injection Hdev as ->.
    rewrite Hfiles. apply lookup_insert_eq.
Defined.

Lemma merge_keeps_other_fields_witness :
  let w := world_of (on_disk manifest_test) [] in
  let w' := after (Init.handleBuildScripts "package.json" w) in
  exists updated : obj,
    files w' !! "package.json" = Some (JSON_stringify (JObj updated) 2) /\
    obj_get "name" updated = Some (JStr "demo") /\
    obj_get "version" updated = Some (JStr "1.0.0") /\
    Object_keys updated = ["name"; "scripts"; "version"].
Proof.
  intros w w'.
  destruct (merge_keeps_other_fields "package.json" w w') with (file := "package.json")
    as [Hsame | (_ & updated & Hfile & Hget & Hkeys & _)].
  - vm_compute. reflexivity.
  - vm_compute. reflexivity.
  - vm_compute in Hsame. discriminate.
  - exists updated. split; [assumption|].
    rewrite !Hget by discriminate. rewrite Hkeys. repeat split.
Defined.

Lemma merge_twice_same_witness :
  let w := world_of (on_disk manifest_test) [KConfirm true; KConfirm true] in
  exists w1 w2 : world,
    Init.handleBuildScripts "package.json" w = Done tt w1 /\
    Init.handleBuildScripts "package.json" w1 = Done tt w2 /\
    files w2 = files w1.
Proof.
  intros w.
  destruct (merge_twice_same "package.json" w [])
    as (w1 & w2 & Hrun1 & Hrun2 & Hsame & _).
  - vm_compute. reflexivity.
  - vm_compute. reflexivity.
  - reflexivity.
  - vm_compute. reflexivity.
  - exists w1, w2. repeat split; assumption.
Defined.

(** Two runs of the entry-file loop that return: the prompt left with
    Ctrl-C, and a file entered. *)
Lemma collections_never_empty_witness :
  let fs : gmap string string := {[ "src/index.ts" := "export {}" ]} in
  let cancelled := world_of fs [KCancel; KConfirm false] in
  let entered := world_of fs [KText "src/index.ts"; KConfirm false] in
  (exists w', Init.collectEntryFiles cancelled = Done [Symbol] w' /\
              [Symbol (A := string)] <> []) /\
  (exists w', Init.collectEntryFiles entered = Done [Value "src/index.ts"] w' /\
              [Value "src/index.ts"] <> []).
Proof.
  intros fs cancelled entered.
  destruct collections_never_empty
    as (Hne & _ & _ & _ & _ & _ & _ & _ & Hcancelled & Hentered & _).
  split; eexists.
  - split; [exact (Hcancelled cancelled [] eq_refl)|].
    exact (Hne _ _ _ (Hcancelled cancelled [] eq_refl)).
  - assert ("src/index.ts" <> "") as Hvalue by discriminate.
    split; [exact (Hentered entered "src/index.ts" [] eq_refl Hvalue eq_refl eq_refl)|].
    exact (Hne _ _ _ (Hentered entered "src/index.ts" [] eq_refl Hvalue eq_refl eq_refl)).
Defined.

(** C6 as the specification states it fails: the two pairs are the same
    text. *)
Lemma build_scripts_not_distinct :
  ~ (Init.createWorkspaceBuildScripts <> Init.createBuildScripts).
Proof. intros Hne. now apply Hne. Qed.

(** The example of the rule: a descriptor with a [full] monorepo mapping
    only, the variant [basic] and monorepo chosen resolve to the [full]
    monorepo directory. *)
Lemma template_dir_follows_rule_witness :
  Create.getTemplateDir template_full_monorepo Create.basic true = "ts-lib-monorepo".
Proof.
  refine (eq_trans
            (template_dir_follows_rule template_full_monorepo Create.basic true _)
            eq_refl).
  right. split.
  - intros d [= <-]. discriminate.
  - intros m d [= <-]. discriminate.
Defined.

(** A descriptor that is not one of [TEMPLATES], with the empty string for
    the directory of its [basic] variant: the directory of [full] is
    taken. *)
Example empty_variant_dir_falls_to_full :
  Create.dirs_basic (Create.variants template_empty_basic)
    = Some {| Create.dir := "" |} /\
  Create.getTemplateDir template_empty_basic Create.basic false = "ts-lib".
Proof. split; reflexivity. Qed.

(** C9 as the specification states it fails twice over.  A name given on
    the command line is used as it is, with its space and although a path
    exists for it; and the prompt accepts a name with a tab in it. *)
Lemma project_name_not_always_checked :
  let template := template_empty_basic in
  let w := world_of ∅ [] in
  (Create.resolveProjectName template (Some "my lib") w = Done "my lib" w /\
   has_char " " "my lib" = true) /\
  (Create.resolveProjectName template (Some "taken") w = Done "taken" w /\
   Create.pathExistsSync (files w) (Create.getProjectPath "taken") = true) /\
  (exists w',
     Create.resolveProjectName template None
       (world_of ∅ [KText ("my" +:+ TAB +:+ "lib")])
     = Done ("my" +:+ TAB +:+ "lib") w' /\
     has_char (ascii_of_nat 9) ("my" +:+ TAB +:+ "lib") = true).
Proof.
  repeat split.
  eexists. split; [vm_compute; reflexivity | reflexivity].
Qed.

(** The name prompt at work: an empty line, a name with a space and a
    taken name are each answered with their message, and the fourth
    submission is the project name. *)
Example project_name_prompt_run :
  let w := world_of ∅ [KText ""; KText "my lib"; KText "taken"; KText "fresh"] in
  exists w',
    Create.resolveProjectName template_empty_basic None w = Done "fresh" w' /\
    out w' = [EPrompt "Enter the project name";
              EInvalid "Project name is required";
              EInvalid "Project name cannot contain spaces";
              EInvalid "Project already exists"] /\
    keys w' = [].
Proof. eexists. split; [vm_compute; reflexivity | split; reflexivity]. Qed.

(** The entry-file loop at work: a missing file and a repeated file are
    turned down inside the loop, and two files are collected. *)
Example collectEntryFiles_run :
  let fs : gmap string string :=
    {[ "src/index.ts" := "export {}"; "src/cli.ts" := "export {}" ]} in
  let w := world_of fs [KText "src/none.ts"; KText "src/index.ts"; KConfirm true;
                        KText "src/index.ts"; KText "src/cli.ts"; KConfirm false] in
  exists w',
    Init.collectEntryFiles w
      = Done [Value "src/index.ts"; Value "src/cli.ts"] w' /\
    out w' = [EPrompt "Where is your entry file?";
              EInvalid "Entry file does not exist";
              EPrompt "Do you want to add another entry file?";
              EPrompt "Where is your next entry file?";
              EInvalid "You have already added this entry file";
              EPrompt "Do you want to add another entry file?"].
Proof. eexists. split; [vm_compute; reflexivity | reflexivity]. Qed.

(** A manifest whose [scripts] is [null] gets a fresh scripts table, in the
    place where [scripts] stood. *)
Example merge_on_null_scripts :
  files (after (Init.handleBuildScripts "package.json"
                  (world_of (on_disk manifest_scripts_null) [])))
    !! "package.json" =
  Some (JSON_stringify
          (JObj [("name", JStr "demo");
                 ("scripts", JObj [("build", JStr "bunup");
                                   ("dev", JStr "bunup --watch")])]) 2).
Proof. vm_compute. reflexivity. Qed.

(** The package loop at work: one package with one entry file. *)
Example collectWorkspacePackages_run :
  let fs : gmap string string := {[ "packages/core/src/index.ts" := "export {}" ]} in
  let w := world_of fs [KText "core"; KText ""; KText "packages/core";
                        KText "src/index.ts"; KConfirm false;
                        KMulti ["esm"]; KConfirm false] in
  exists w',
    Init.collectWorkspacePackages w =
      Done [{| Init.pushed_name := "core"; Init.pushed_root := "packages/core";
               Init.pushed_entryFiles := [Value "src/index.ts"];
               Init.pushed_outputFormats := Value ["esm"] |}] w' /\
    In (EInvalid "Package root is required") (out w') /\
    keys w' = [].
Proof.
  eexists. split; [vm_compute; reflexivity|]. split; [cbn; tauto | reflexivity].
Qed.

(** A whole single-package run in which the user declines the override:
    the configuration is written, the manifest is left as it was, and the
    flow goes on to the install step and the closing summary. *)
Example init_run_declined :
  let fs := <["src/index.ts" := "export {}"]> (on_disk manifest_old_build) in
  let w := world_of fs [KConfirm false; KText "src/index.ts"; KConfirm false;
                        KMulti ["esm"; "cjs"]; KMulti []; KConfirm false] in
  exists w',
    Init.init w = Done tt w' /\
    files w' !! "package.json" = fs !! "package.json" /\
    files w' !! "bunup.config.ts" =
      Some (Init.createConfigFileContent ["src/index.ts"] ["esm"; "cjs"] []) /\
    skipn 7 (out w') =
      [EPrompt "The build script already exists in package.json. Override it?";
       ELogInfo "Skipped adding build scripts to avoid conflicts.";
       ETask "Installing bunup";
       EExec "bun add -d bunup";
       ETaskDone "Bunup installed";
       EOutro ["bun run build - Build your library";
               "bun run dev - Start development mode"]].
Proof. eexists. split; [vm_compute; reflexivity | repeat split]. Qed.

(** The plugin selection left with Ctrl-C: the configuration is written
    without plugins and the run completes. *)
Example init_run_cancelled_plugins :
  let fs := <["src/index.ts" := "export {}"]> (on_disk manifest_test) in
  let w := world_of fs [KConfirm false; KText "src/index.ts"; KConfirm false;
                        KMulti ["esm"; "cjs"]; KCancel] in
  exists w',
    Init.init w = Done tt w' /\
    files w' !! "bunup.config.ts" =
      Some (Init.createConfigFileContent ["src/index.ts"] ["esm"; "cjs"] []) /\
    keys w' = [].
Proof. eexists. split; [vm_compute; reflexivity | split; reflexivity]. Qed.

(** An entry prompt left with Ctrl-C: the loop goes on, the two selections
    are still shown, and the renderer throws; nothing was written. *)
Example init_run_cancelled_entry :
  let fs := <["src/index.ts" := "export {}"]> (on_disk manifest_test) in
  let w := world_of fs [KConfirm false; KCancel; KConfirm false;
                        KMulti ["esm"; "cjs"]; KMulti []] in
  Init.init w =
  Cancelled {| files := fs; keys := [];
               out := [EIntro " Initialize bunup in an existing project ";
                       EPrompt "Do you want to setup a Bunup workspace? (for building multiple packages with one command)";
                       EPrompt "Where is your entry file?";
                       EPrompt "Do you want to add another entry file?";
                       EPrompt "Select the output formats";
                       EPrompt "Select productivity plugins that make your life easier"] |}.
Proof. vm_compute. reflexivity. Qed.

(** The first-package prompt left with Ctrl-C: the repository is still
    asked for and the template downloaded, the symbol goes to the
    replacement, and [path.join] throws on it. *)
Example createProject_run_cancelled_package :
  let w := world_of ∅ [KSelect "typescript"; KSelect "full"; KConfirm true;
                       KText "my-lib"; KCancel; KText "me/my-lib"] in
  exists w',
    Create.createProject None w = Cancelled w' /\
    skipn 8 (out w') =
      [EDownload "github:bunup/templates/ts-lib-monorepo" "/work/my-lib";
       ETaskDone "Template downloaded";
       ETask "Making the project yours";
       EReplace "/work/my-lib/**/*"
         [("repo-name", Value (Some "my-lib")); ("username", Value (Some "me"));
          ("my-ts-lib", Value (Some "my-lib")); ("package-1", Symbol)]
         ["node_modules"; "dist"; "bun.lock"]].
Proof. eexists. split; [vm_compute; reflexivity | reflexivity]. Qed.

(** A whole create run: a monorepo from the basic TypeScript template. *)
Example createProject_run :
  let w := world_of ∅ [KSelect "typescript"; KSelect "basic"; KConfirm true;
                       KText "my lib"; KText "my-lib"; KText ""; KText "me/my-lib"] in
  exists w',
    Create.createProject None w = Done tt w' /\
    In (EInvalid "Project name cannot contain spaces") (out w') /\
    In (EDownload "github:bunup/templates/ts-lib-monorepo-basic" "/work/my-lib")
       (out w') /\
    keys w' = [].
Proof.
  eexists. split; [vm_compute; reflexivity|].
  split; [|split; [|reflexivity]]; cbn; tauto.
Qed.

End Runs.

(** * Further properties *)

(** ** More on the manifest script merge *)

Section MergeMore.
Context `{JsNumber} `{!Host}.
Import Init.

(** X1.  Whatever the manifest holds, the merge finds no conflict, [build]
    alone, [dev] alone, or both in that order; and its question then reads
    in the singular for one script and in the plural for both. *)
Theorem override_message_forms (existingScripts : json) :
  let conflicts := conflictingScriptsOf existingScripts createBuildScripts in
  conflicts = [] \/
  (conflicts = ["build"] /\
   overrideMessage conflicts =
     "The build script already exists in package.json. Override it?") \/
  (conflicts = ["dev"] /\
   overrideMessage conflicts =
     "The dev script already exists in package.json. Override it?") \/
  (conflicts = ["build"; "dev"] /\
   overrideMessage conflicts =
     "The build and dev scripts already exist in package.json. Override them?").
Proof.
  unfold conflictingScriptsOf. cbn [map fst createBuildScripts List.filter].
  destruct (truthy (obj_get "build" (own_props existingScripts))),
           (truthy (obj_get "dev" (own_props existingScripts)));
    cbn zeta; auto 6.
Qed.

(** X2.  One call of the merge asks at most one question: none when it
    found no conflict, and then it writes; exactly one otherwise, which
    uses up exactly one key.  It waits only at that question, and it never
    ends the process. *)
Theorem merge_asks_at_most_once (packageJsonPath : string) (w : world) :
  let conflicts :=
    conflictingScriptsOf
      (existingScriptsOf (data (load_package_json (files w)))) createBuildScripts in
  let is_prompt := fun e => match e with EPrompt _ => true | _ => false end in
  match handleBuildScripts packageJsonPath w with
  | Done _ w' =>
      (conflicts = [] /\ keys w' = keys w /\
       (exists content, out w' = out w ++ [EWrite packageJsonPath content])) \/
      (conflicts <> [] /\ (exists k, keys w = k :: keys w') /\
       (exists e, out w' = out w ++ [EPrompt (overrideMessage conflicts); e] /\
                  is_prompt e = false))
  | Waiting w' =>
      conflicts <> [] /\ files w' = files w /\ keys w' = keys w /\
      out w' = out w ++ [EPrompt (overrideMessage conflicts)]
  | Cancelled _ | Exited _ _ | Diverged _ => False
  end.
Proof.
  unfold handleBuildScripts. rewrite handleScriptsWith_run. cbn zeta.
  destruct (conflictingScriptsOf _ _) as [|c cs].
  - left. cbn [files keys out]. eauto.
  - destruct (keys w) as [|[t|[|]|v|vs|] r]; cbn [files keys out];
      first [ right; split; [discriminate|]; split; [eexists; reflexivity|];
              eexists; rewrite <- app_assoc; split; reflexivity
            | repeat split; discriminate ].
Qed.

(** X3.  When the loader has no manifest data, or the manifest has no
    [scripts], or its [scripts] is [null], the merge asks nothing and
    writes the manifest with a scripts table of exactly the two new
    scripts. *)
Theorem merge_without_scripts (packageJsonPath : string) (w : world) :
  let manifest := data (load_package_json (files w)) in
  wf_obj (manifest_fields manifest) = true ->
  obj_get "scripts" (manifest_fields manifest) = None \/
  obj_get "scripts" (manifest_fields manifest) = Some JNull ->
  let content :=
    JSON_stringify
      (JObj (obj_set "scripts"
               (JObj [("build", JStr "bunup"); ("dev", JStr "bunup --watch")])
               (manifest_fields manifest))) 2 in
  handleBuildScripts packageJsonPath w =
  Done tt {| files := <[packageJsonPath := content]> (files w);
             keys := keys w;
             out := out w ++ [EWrite packageJsonPath content] |}.
Proof.
  intros manifest Hwf Hscripts content.
  assert (existingScriptsOf manifest = JObj []) as Hex.
  { unfold existingScriptsOf. destruct manifest as [m|]; [|reflexivity].
    cbn [manifest_fields] in Hscripts. now destruct Hscripts as [-> | ->]. }
  unfold handleBuildScripts. rewrite handleScriptsWith_run. cbn zeta.
  fold manifest. rewrite Hex.
  assert (updatedConfigOf manifest createBuildScripts =
          obj_set "scripts"
            (JObj [("build", JStr "bunup"); ("dev", JStr "bunup --watch")])
            (manifest_fields manifest)) as ->.
  { unfold updatedConfigOf. rewrite Hex.
    now rewrite (copy_props_id (manifest_fields manifest)). }
  reflexivity.
Qed.

(** X4.  Without a manifest path (none found, or an empty one) [init] logs
    the error and ends the process with status 1, before any question and
    without writing a file. *)
Theorem init_without_manifest (w : world) :
  path (load_package_json (files w)) = None \/
  path (load_package_json (files w)) = Some "" ->
  init w =
  Exited 1 {| files := files w; keys := keys w;
              out := out w ++ [EIntro " Initialize bunup in an existing project ";
                               ELogError "package.json not found"] |}.
Proof.
  intros Hpath. unfold init, bind, emit, loadPackageJson, process_exit.
  cbn [files keys out].
  destruct Hpath as [-> | ->]; cbn [files keys out];
    now rewrite <- app_assoc.
Qed.

End MergeMore.

(** ** More on the collection loops *)

Section CollectMore.
Context `{JsNumber} `{!Host}.
Import Init.

Lemma text_accepted (message : string) (defaultValue : option string)
    (validate : string -> option string) (w w' : world) (a : string) :
  validate "" <> None ->
  text message defaultValue validate w = Done a w' ->
  validate a = None /\ files w' = files w.
Proof.
  intros Hempty Hrun. unfold text in Hrun.
  apply text_loop_Done in Hrun as (value & Hv & -> & Hf & _).
  split; [|assumption].
  destruct (String.eqb_spec value ""); [congruence | assumption].
Qed.

Lemma confirm_files (message : string) (w w' : world) (a : answer) :
  confirm message w = Done a w' -> files w' = files w.
Proof.
  unfold confirm. destruct (keys w) as [|[t|b|v|vs|] r]; try discriminate;
    now intros [= _ <-].
Qed.

Lemma multiselect_files (message : string) (options : list string)
    (required : bool) (w w' : world) (vs : list string) :
  multiselect message options required w = Done vs w' -> files w' = files w.
Proof.
  unfold multiselect. generalize (out w ++ [EPrompt message]).
  induction (keys w) as [|k r IH]; intros shown; simpl; [discriminate|].
  destruct k as [t|b|v|us|]; try discriminate.
  destruct (negb _); [discriminate|].
  destruct (required && _); [apply IH | now intros [= _ <-]].
Qed.

Lemma kept_multiselect_files (message : string) (options : list string)
    (required : bool) (w w' : world) (r : resolved (list string)) :
  kept (multiselect message options required) w = Done r w' ->
  files w' = files w.
Proof.
  intros Hrun. apply kept_Done in Hrun. destruct r as [vs|].
  - now apply multiselect_files in Hrun.
  - unfold multiselect in Hrun.
    now apply multiselect_loop_Cancelled in Hrun as [Hf _].
Qed.

(** What holds of every state and world of a loop holds at its end. *)
Lemma loop_invariant_world {St R} (P : St -> world -> Prop)
    (Q : R -> world -> Prop) (body : St -> M (St + R)) :
  (forall s w x w', P s w -> body s w = Done x w' ->
     match x with inl s' => P s' w' | inr r => Q r w' end) ->
  forall fuel s w r w', P s w -> loop fuel body s w = Done r w' -> Q r w'.
Proof.
  intros Hbody. induction fuel as [|n IH]; intros s w r w' Hs; simpl;
    [discriminate|].
  destruct (body s w) as [[s'|r'] w1| | | |] eqn:E; try discriminate.
  - apply (IH s' w1 r w'). exact (Hbody _ _ _ _ Hs E).
  - intros [= <- <-]. exact (Hbody _ _ _ _ Hs E).
Qed.

Lemma in_values {A} (a : A) (l : list (resolved A)) :
  In a (values l) <-> In (Value a) l.
Proof.
  unfold values. rewrite in_flat_map. split.
  - intros ([b|] & Hin & Hb); [|destruct Hb]. destruct Hb as [<- | []]. assumption.
  - intros Hin. exists (Value a). split; [assumption | now left].
Qed.

Lemma values_snoc {A} (l : list (resolved A)) (r : resolved A) :
  values (l ++ [r]) =
  values l ++ match r with Value a => [a] | Symbol => [] end.
Proof. unfold values. rewrite flat_map_app. simpl. now rewrite app_nil_r. Qed.

Lemma not_listed (value : string) (l : list (resolved string)) :
  Array_includes l value = false -> ~ In value (values l).
Proof.
  intros He Hin. apply in_values in Hin.
  assert (Array_includes l value = true); [|congruence].
  apply existsb_exists. exists (Value value).
  split; [assumption | apply String.eqb_refl].
Qed.

Lemma NoDup_snoc {A} (l : list A) (x : A) : List.NoDup l -> ~ In x l -> List.NoDup (l ++ [x]).
Proof.
  induction 1 as [|y l Hy Hl IH]; intros Hx; simpl.
  - constructor; [intros [] | constructor].
  - constructor.
    + intros Hin. apply in_app_or in Hin as [Hin | [<- | []]]; [contradiction|].
      apply Hx. now left.
    + apply IH. intros Hin. apply Hx. now right.
Qed.

(** One round of an entry-file loop whose validator turns down the empty
    line and what is already listed: it adds a valid new file, or the
    cancel symbol. *)
Lemma entry_round_valid (valid : string -> Prop) (message : string)
    (validate : list (resolved string) -> string -> option string)
    (again : string) (fs : gmap string string)
    (entryFiles : list (resolved string)) (w w' : world)
    (x : list (resolved string) + list (resolved string)) :
  (forall l, validate l "" <> None) ->
  (forall l v, validate l v = None -> valid v /\ ~ In v (values l)) ->
  files w = fs -> List.NoDup (values entryFiles) ->
  (forall f, In f (values entryFiles) -> valid f) ->
  bind (kept (text message None (validate entryFiles))) (fun entryFile =>
    let entryFiles := entryFiles ++ [entryFile] in
    bind (confirm again) (fun shouldAddMore =>
      if negb (answer_truthy shouldAddMore) then ret (inr entryFiles)
      else ret (inl entryFiles))) w = Done x w' ->
  let good := fun l => files w' = fs /\ List.NoDup (values l) /\
                       forall f, In f (values l) -> valid f in
  match x with inl l => good l | inr l => good l end.
Proof.
  intros Hempty Hvalid Hfs Hnd Hall Hrun.
  apply bind_Done in Hrun as (entryFile & w1 & Htext & Hrun).
  apply kept_Done in Htext.
  apply bind_Done in Hrun as (more & w2 & Hconfirm & Hrun).
  apply confirm_files in Hconfirm.
  assert (files w' = fs /\ List.NoDup (values (entryFiles ++ [entryFile])) /\
          forall f, In f (values (entryFiles ++ [entryFile])) -> valid f) as Hgood.
  { assert (w' = w2) as -> by (destruct (negb _); now injection Hrun as _ <-).
    rewrite values_snoc. destruct entryFile as [entryFile|].
    - apply text_accepted in Htext as [Hv Hf1]; [|apply Hempty].
      apply Hvalid in Hv as [Hv Hnew].
      split; [congruence|]. split; [now apply NoDup_snoc|].
      intros f Hin. apply in_app_or in Hin as [Hin | [<- | []]]; auto.
    - unfold text in Htext. apply text_loop_Cancelled in Htext as [Hf1 _].
      rewrite app_nil_r. split; [congruence|]. split; assumption. }
  destruct (negb (answer_truthy more)); injection Hrun as <- _; exact Hgood.
Qed.

(** X5.  An entry of the list [collectEntryFiles] returns is the line a
    prompt accepted or, for a prompt left with Ctrl-C, the cancel symbol.
    The lines are pairwise different and non-empty, and each one exists
    and is a regular file; collecting them changes no file. *)
Theorem collectEntryFiles_valid (w w' : world)
    (entryFiles : list (resolved string)) :
  collectEntryFiles w = Done entryFiles w' ->
  List.NoDup (values entryFiles) /\
  (forall f, In (Value f) entryFiles ->
     f <> "" /\ fs_existsSync (files w) f = true /\ fs_isFile (files w) f = true) /\
  files w' = files w.
Proof.
  unfold collectEntryFiles. intros Hrun.
  apply bind_Done in Hrun as (fs & w1 & [= <- <-] & Hrun).
  unfold while_true in Hrun.
  eapply (loop_invariant_world
            (fun l w0 => files w0 = files w /\ List.NoDup (values l) /\
               forall f, In f (values l) ->
                 f <> "" /\ fs_existsSync (files w) f = true
                 /\ fs_isFile (files w) f = true)
            (fun l w0 => files w0 = files w /\ List.NoDup (values l) /\
               forall f, In f (values l) ->
                 f <> "" /\ fs_existsSync (files w) f = true
                 /\ fs_isFile (files w) f = true)) in Hrun.
  - destruct Hrun as (Hf & Hnd & Hall). repeat split; try assumption;
      now apply Hall, in_values.
  - intros s w0 x w0' (Hf & Hnd & Hall) Hround.
    set (validate := fun (l : list (resolved string)) (value : string) =>
           if String.eqb value "" then Some "Entry file is required"
           else if negb (fs_existsSync (files w) value)
           then Some "Entry file does not exist"
           else if negb (fs_isFile (files w) value)
           then Some "Entry file must be a file"
           else if Array_includes l value
           then Some "You have already added this entry file"
           else None).
    assert (forall l, validate l "" <> None) as Hempty by (intros l; discriminate).
    assert (forall l v, validate l v = None ->
              (v <> "" /\ fs_existsSync (files w) v = true
               /\ fs_isFile (files w) v = true) /\ ~ In v (values l)) as Hvalid.
    { intros l v. unfold validate.
      destruct (String.eqb_spec v ""); [discriminate|].
      destruct (fs_existsSync (files w) v); [|discriminate].
      destruct (fs_isFile (files w) v); [|discriminate].
      destruct (Array_includes l v) eqn:E; [discriminate|].
      intros _. repeat split; try assumption. now apply not_listed. }
    apply (entry_round_valid _ _ validate _ _ _ _ _ _ Hempty Hvalid Hf Hnd Hall)
      in Hround.
    now destruct x.
  - repeat split; [constructor | contradiction..].
Qed.

Lemma package_entries_valid (packageRoot packageName : string)
    (w w' : world) (entryFiles : list (resolved string)) :
  collectEntryFilesForPackage packageRoot packageName w = Done entryFiles w' ->
  List.NoDup (values entryFiles) /\
  (forall f, In (Value f) entryFiles ->
     f <> "" /\
     fs_existsSync (files w) (path_join packageRoot f) = true /\
     fs_isFile (files w) (path_join packageRoot f) = true) /\
  files w' = files w.
Proof.
  unfold collectEntryFilesForPackage. intros Hrun.
  apply bind_Done in Hrun as (fs & w1 & [= <- <-] & Hrun).
  unfold while_true in Hrun.
  eapply (loop_invariant_world
            (fun l w0 => files w0 = files w /\ List.NoDup (values l) /\
               forall f, In f (values l) ->
                 f <> "" /\ fs_existsSync (files w) (path_join packageRoot f) = true
                 /\ fs_isFile (files w) (path_join packageRoot f) = true)
            (fun l w0 => files w0 = files w /\ List.NoDup (values l) /\
               forall f, In f (values l) ->
                 f <> "" /\ fs_existsSync (files w) (path_join packageRoot f) = true
                 /\ fs_isFile (files w) (path_join packageRoot f) = true)) in Hrun.
  - destruct Hrun as (Hf & Hnd & Hall). repeat split; try assumption;
      now apply Hall, in_values.
  - intros s w0 x w0' (Hf & Hnd & Hall) Hround.
    set (validate := fun (l : list (resolved string)) (value : string) =>
           if String.eqb value "" then Some "Entry file is required"
           else
             let fullPath := path_join packageRoot value in
             if negb (fs_existsSync (files w) fullPath)
             then Some ("Entry file does not exist at " +:+ fullPath)
             else if negb (fs_isFile (files w) fullPath)
             then Some "Entry file must be a file"
             else if Array_includes l value
             then Some "You have already added this entry file"
             else None).
    assert (forall l, validate l "" <> None) as Hempty by (intros l; discriminate).
    assert (forall l v, validate l v = None ->
              (v <> "" /\ fs_existsSync (files w) (path_join packageRoot v) = true
               /\ fs_isFile (files w) (path_join packageRoot v) = true)
              /\ ~ In v (values l)) as Hvalid.
    { intros l v. unfold validate. cbn zeta.
      destruct (String.eqb_spec v ""); [discriminate|].
      destruct (fs_existsSync (files w) (path_join packageRoot v)); [|discriminate].
      destruct (fs_isFile (files w) (path_join packageRoot v)); [|discriminate].
      destruct (Array_includes l v) eqn:E; [discriminate|].
      intros _. repeat split; try assumption. now apply not_listed. }
    apply (entry_round_valid _ _ validate _ _ _ _ _ _ Hempty Hvalid Hf Hnd Hall)
      in Hround.
    now destruct x.
  - repeat split; [constructor | contradiction..].
Qed.

(** X6.  An entry of the list [collectEntryFilesForPackage] returns is
    the line a prompt accepted or, for a prompt left with Ctrl-C, the
    cancel symbol.  The lines are pairwise different and non-empty; each
    is kept as it was entered, relative to the package root, and it is the
    path joined to the root that exists and is a regular file. *)
Theorem collectEntryFilesForPackage_valid (packageRoot packageName : string)
    (w w' : world) (entryFiles : list (resolved string)) :
  collectEntryFilesForPackage packageRoot packageName w = Done entryFiles w' ->
  List.NoDup (values entryFiles) /\
  (forall f, In (Value f) entryFiles ->
     f <> "" /\
     fs_existsSync (files w) (path_join packageRoot f) = true /\
     fs_isFile (files w) (path_join packageRoot f) = true) /\
  files w' = files w.
Proof. apply package_entries_valid. Qed.

(** X7.  The packages [collectWorkspacePackages] returns have pairwise
    different, non-empty names; the root of each exists and is a
    directory; and the entry files of each, the cancel symbols of
    cancelled prompts apart, are pairwise different and are regular files
    under that root.  Collecting them changes no file. *)
Theorem collectWorkspacePackages_valid (w w' : world)
    (packages : list PushedPackage) :
  collectWorkspacePackages w = Done packages w' ->
  List.NoDup (map pushed_name packages) /\
  (forall pkg, In pkg packages ->
     pushed_name pkg <> "" /\
     fs_existsSync (files w) (pushed_root pkg) = true /\
     fs_isDirectory (files w) (pushed_root pkg) = true /\
     List.NoDup (values (pushed_entryFiles pkg)) /\
     forall f, In (Value f) (pushed_entryFiles pkg) ->
       fs_existsSync (files w) (path_join (pushed_root pkg) f) = true /\
       fs_isFile (files w) (path_join (pushed_root pkg) f) = true) /\
  files w' = files w.
Proof.
  unfold collectWorkspacePackages. intros Hrun.
  apply bind_Done in Hrun as (fs & w1 & [= <- <-] & Hrun).
  unfold while_true in Hrun.
  set (good := fun pkg : PushedPackage =>
     pushed_name pkg <> "" /\
     fs_existsSync (files w) (pushed_root pkg) = true /\
     fs_isDirectory (files w) (pushed_root pkg) = true /\
     List.NoDup (values (pushed_entryFiles pkg)) /\
     forall f, In (Value f) (pushed_entryFiles pkg) ->
       fs_existsSync (files w) (path_join (pushed_root pkg) f) = true /\
       fs_isFile (files w) (path_join (pushed_root pkg) f) = true).
  eapply (loop_invariant_world
            (fun ps w0 => files w0 = files w /\ List.NoDup (map pushed_name ps) /\
                          forall pkg, In pkg ps -> good pkg)
            (fun ps w0 => files w0 = files w /\ List.NoDup (map pushed_name ps) /\
                          forall pkg, In pkg ps -> good pkg)) in Hrun.
  - tauto.
  - intros ps w0 x w0' (Hf & Hnd & Hall) Hround.
    apply bind_Done in Hround as (packageName & w2 & Hname & Hround).
    apply text_accepted in Hname as [Hname Hf2]; [|discriminate].
    apply bind_Done in Hround as (packageRoot & w3 & Hroot & Hround).
    apply text_accepted in Hroot as [Hroot Hf3]; [|discriminate].
    apply bind_Done in Hround as (entries & w4 & Hentries & Hround).
    apply package_entries_valid in Hentries as (Hend & Heall & Hf4).
    apply bind_Done in Hround as (formats & w5 & Hformats & Hround).
    apply kept_multiselect_files in Hformats.
    apply bind_Done in Hround as (more & w6 & Hconfirm & Hround).
    apply confirm_files in Hconfirm.
    assert (files w3 = files w) as Hw3 by congruence.
    destruct (String.eqb_spec packageName ""); [discriminate|].
    destruct (existsb (fun pkg => String.eqb (pushed_name pkg) packageName) ps)
      eqn:Ename; [discriminate|].
    destruct (String.eqb_spec packageRoot ""); [discriminate|].
    destruct (fs_existsSync (files w) packageRoot) eqn:Eex; [|discriminate].
    destruct (fs_isDirectory (files w) packageRoot) eqn:Edir; [|discriminate].
    set (pkg := {| pushed_name := packageName; pushed_root := packageRoot;
                   pushed_entryFiles := entries;
                   pushed_outputFormats := formats |}) in *.
    assert (files w0' = files w /\ List.NoDup (map pushed_name (ps ++ [pkg])) /\
            forall p, In p (ps ++ [pkg]) -> good p) as Hgood.
    { assert (w0' = w6) as ->
        by (destruct (negb (answer_truthy more)); now injection Hround as _ <-).
      split; [congruence|]. split.
      - rewrite map_app. apply NoDup_snoc; [assumption|].
        intros Hin. apply in_map_iff in Hin as (p & Hp & Hin).
        assert (existsb (fun pkg => String.eqb (pushed_name pkg) packageName) ps
                = true); [|congruence].
        apply existsb_exists. exists p. split; [assumption|].
        now apply String.eqb_eq.
      - intros p Hin. apply in_app_or in Hin as [Hin | [<- | []]]; [auto|].
        unfold good. cbn [pushed_name pushed_root pushed_entryFiles pkg].
        repeat split; try assumption; rewrite Hw3 in Heall;
          now apply Heall. }
    destruct (negb (answer_truthy more)); injection Hround as <- _; exact Hgood.
  - split; [reflexivity|]. split; [exact (List.NoDup_nil _) | intros pkg []].
Qed.

End CollectMore.

(** ** More on the create flow *)

Section CreateMore.
Context `{JsNumber} `{!Host}.
Import Create.

(** X8.  Leaving the template selection with Ctrl-C ends the create flow
    with status 1 right after the message [Invalid template]: no further
    question is asked, nothing is downloaded and no file is touched. *)
Theorem createProject_without_template (projectNameFromCli : option string)
    (w : world) (r : list key) :
  keys w = KCancel :: r ->
  createProject projectNameFromCli w =
  Exited 1 {| files := files w; keys := r;
              out := out w ++ [EIntro " Scaffold a new project with Bunup ";
                               EPrompt "Select a template";
                               ECancel "Invalid template"] |}.
Proof.
  intros Hk. unfold createProject, bind, emit, select, process_exit.
  cbn [files keys out]. rewrite Hk. cbn [List.find TEMPLATES files keys out].
  now rewrite <- !app_assoc.
Qed.

(** X9.  The directory [getTemplateDir] resolves to is never empty as long
    as the [full] directories of the descriptor are not: an empty variant
    directory is skipped, never returned. *)
Theorem template_dir_not_empty (template : Template)
    (selectedVariant : TemplateVariant) (useMonorepo : bool) :
  dir (dirs_full (variants template)) <> "" ->
  (forall m, monorepo template = Some m -> dir (dirs_full m) <> "") ->
  getTemplateDir template selectedVariant useMonorepo <> "".
Proof.
  intros Hv Hm. unfold getTemplateDir, dir_or_full.
  destruct (monorepo template) as [m|] eqn:E, useMonorepo, selectedVariant;
    cbn [dirs_at];
    repeat match goal with
    | |- context [dirs_basic ?x] => destruct (dirs_basic x) as [d|] eqn:Ed
    | |- context [String.eqb ?x ""] => destruct (String.eqb_spec x "")
    end;
    first [ assumption | now apply Hm ].
Qed.

Lemma resolveProjectName_not_empty (template : Template)
    (projectNameFromCli : option string) (w w' : world) (projectName : string) :
  resolveProjectName template projectNameFromCli w = Done projectName w' ->
  projectName <> "".
Proof.
  assert (forall v w0, text "Enter the project name" (Some (defaultName template))
            (validateProjectName (files w0)) w0 = Done v w' -> v <> "") as Hprompt.
  { intros v w0 Hrun. unfold text in Hrun.
    apply text_loop_Done in Hrun as (value & Hv & -> & _).
    apply validateProjectName_None in Hv as (Hne & _).
    destruct (String.eqb_spec value ""); congruence. }
  destruct projectNameFromCli as [[|c r]|]; cbn [resolveProjectName].
  - intros Hrun. apply bind_Done in Hrun as (fs & w1 & [= <- <-] & Hrun). eauto.
  - intros [= <- _]. discriminate.
  - intros Hrun. apply bind_Done in Hrun as (fs & w1 & [= <- <-] & Hrun). eauto.
Qed.

Lemma grows_ret {A} (a : A) : grows (ret a).
Proof. intros w b w' [= _ <-]. exists []. now rewrite app_nil_r. Qed.

Lemma grows_get_files : grows get_files.
Proof. intros w b w' [= _ <-]. exists []. now rewrite app_nil_r. Qed.

Lemma grows_emit (e : event) : grows (emit e).
Proof. intros w b w' [= _ <-]. now exists [e]. Qed.

Lemma grows_effect (e : event) (change : gmap string string -> gmap string string) :
  grows (effect e change).
Proof. intros w b w' [= _ <-]. now exists [e]. Qed.

Lemma grows_bind {A B} (m : M A) (k : A -> M B) :
  grows m -> (forall a, grows (k a)) -> grows (bind m k).
Proof.
  intros Hm Hk w b w' Hrun. apply bind_Done in Hrun as (a & w1 & H1 & H2).
  apply Hm in H1 as [evs1 H1]. apply Hk in H2 as [evs2 H2].
  exists (evs1 ++ evs2). now rewrite H2, H1, app_assoc.
Qed.

Lemma grows_TypeError {A} : grows (TypeError (A := A)).
Proof. intros w a w'. discriminate. Qed.

Ltac grows_step :=
  first
    [ apply grows_ret | apply grows_get_files | apply grows_emit
    | apply grows_effect | apply grows_TypeError
    | apply grows_bind; [|intros ?]
    | match goal with
      | |- grows (match ?x with _ => _ end) => destruct x
      end ].

(** X10.  A create run that completes began with the selection of one of
    the built-in templates and an answer to the variant question (Ctrl-C
    included, which the flow does not stop at), and it has downloaded,
    into the path of a non-empty project name under the working directory,
    the directory of the fixed template repository those answers resolve
    to: for a cancelled variant selection, the [full] one. *)
Theorem createProject_downloads (projectNameFromCli : option string)
    (w w' : world) :
  createProject projectNameFromCli w = Done tt w' ->
  exists template variantKey r projectName,
    keys w = KSelect (type_name (type template)) :: variantKey :: r /\
    In template TEMPLATES /\
    (variantKey = KSelect "basic" \/ variantKey = KSelect "full"
     \/ variantKey = KCancel) /\
    projectName <> "" /\
    let selectedVariant :=
      match variantKey with
      | KSelect "basic" => Value basic
      | KSelect _ => Value full
      | _ => Symbol
      end in
    let useMonorepo :=
      match monorepo template, r with
      | Some _, KConfirm b :: _ => b
      | Some _, _ => true
      | None, _ => false
      end in
    In (EDownload
          ("github:bunup/templates/"
           +:+ resolvedTemplateDir template selectedVariant useMonorepo)
          (getProjectPath projectName))
       (out w').
Proof.
  unfold createProject. intros Hrun.
  apply bind_Done in Hrun as ([] & w1 & [= <-] & Hrun).
  apply bind_Done in Hrun as (selected & w2 & Hsel & Hrun).
  unfold select in Hsel. cbn [keys files out] in Hsel.
  destruct (keys w) as [|k1 r1] eqn:Hk1; [discriminate|].
  destruct k1 as [t|b|v|vs|]; try discriminate.
  2:{ injection Hsel as <- <-. cbn [List.find TEMPLATES] in Hrun.
      apply bind_Done in Hrun as (? & ? & _ & Hrun). discriminate. }
  destruct (existsb _ _) eqn:Hv; [|discriminate].
  injection Hsel as <- <-.
  destruct (List.find _ TEMPLATES) as [template|] eqn:Efind.
  2:{ apply bind_Done in Hrun as (? & ? & _ & Hrun). discriminate. }
  apply find_some in Efind as [Hin Hty]. apply String.eqb_eq in Hty. subst v.
  apply bind_Done in Hrun as (selectedVariant & w3 & Hvar & Hrun).
  assert (exists variantKey r,
            r1 = variantKey :: r /\ keys w3 = r /\
            (variantKey = KSelect "basic" \/ variantKey = KSelect "full"
             \/ variantKey = KCancel) /\
            selectedVariant =
              match variantKey with
              | KSelect "basic" => Value basic
              | KSelect _ => Value full
              | _ => Symbol
              end) as (variantKey & r & -> & Hk3 & Hkey & ->).
  { assert (dirs_basic (variants template) <> None) as Hb
      by (destruct Hin as [<- | [<- | []]]; discriminate).
    destruct (dirs_basic (variants template)); [clear Hb|congruence].
    apply bind_Done in Hvar as (v & w2' & Hsel & Hret).
    unfold select in Hsel; cbn [keys files out] in Hsel.
    destruct r1 as [|[t|b|v2|vs|] r]; try discriminate.
    - cbn [existsb] in Hsel.
      destruct (String.eqb_spec v2 "basic") as [-> | Hb].
      + injection Hsel as <- <-. injection Hret as <- <-.
        exists (KSelect "basic"), r. split; [reflexivity|]. split; [reflexivity|].
        split; [now left | reflexivity].
      + destruct (String.eqb_spec v2 "full") as [-> | Hf]; [|discriminate].
        injection Hsel as <- <-. injection Hret as <- <-.
        exists (KSelect "full"), r. split; [reflexivity|]. split; [reflexivity|].
        split; [right; now left | reflexivity].
    - injection Hsel as <- <-. injection Hret as <- <-.
      exists KCancel, r. split; [reflexivity|]. split; [reflexivity|].
      split; [right; now right | reflexivity]. }
  apply bind_Done in Hrun as (useMonorepo & w4 & Hmono & Hrun).
  assert (useMonorepo =
            match monorepo template, r with
            | Some _, KConfirm b :: _ => b
            | Some _, _ => true
            | None, _ => false
            end) as ->.
  { destruct (monorepo template).
    - apply bind_Done in Hmono as (a & w3' & Hc & Hret).
      unfold confirm in Hc. rewrite Hk3 in Hc.
      destruct r as [|[t|b|v2|vs|] r']; try discriminate;
        injection Hc as <- <-; now injection Hret as <- <-.
    - now injection Hmono as <- _. }
  apply bind_Done in Hrun as (projectName & w5 & Hname & Hrun).
  apply resolveProjectName_not_empty in Hname.
  apply bind_Done in Hrun as (first & w6 & _ & Hrun).
  apply bind_Done in Hrun as (github & w7 & _ & Hrun).
  apply bind_Done in Hrun as ([] & w8 & _ & Hrun).
  apply bind_Done in Hrun as ([] & w9 & Hdown & Hrun).
  exists template, variantKey, r, projectName.
  split; [reflexivity|]. split; [assumption|]. split; [assumption|].
  split; [assumption|]. cbn zeta.
  injection Hdown as <-.
  revert Hrun. match goal with
  | |- ?m ?w0 = Done tt w' -> _ =>
      assert (grows m) as Hgrows by (repeat grows_step)
  end.
  intros Hrun. apply Hgrows in Hrun as [evs ->]. cbn [out].
  apply in_or_app. left. apply in_or_app. right. now left.
Qed.

End CreateMore.

(** ** More on the init flow and the renderers *)

Section InitMore.
Context `{JsNumber} `{!Host}.
Import Init.

(** X11.  An [init] run that completes had a manifest path, and the last
    things it did are the install step, [bun add -d bunup], and the
    closing summary. *)
Theorem init_completed_installs (w w' : world) :
  init w = Done tt w' ->
  (exists packageJsonPath,
     path (load_package_json (files w)) = Some packageJsonPath /\
     packageJsonPath <> "") /\
  exists shown summary,
    out w' = shown ++ [ETask "Installing bunup";
                       EExec "bun add -d bunup";
                       ETaskDone "Bunup installed";
                       EOutro summary].
Proof.
  unfold init. intros Hrun.
  apply bind_Done in Hrun as ([] & w1 & [= <-] & Hrun).
  apply bind_Done in Hrun as (pj & w2 & [= <- <-] & Hrun).
  cbn [files] in Hrun.
  destruct (path (load_package_json (files w))) as [[|c p]|] eqn:Epath;
    try (apply bind_Done in Hrun as (? & ? & _ & Hrun); discriminate).
  split; [exists (String c p); split; [reflexivity | discriminate]|].
  apply bind_Done in Hrun as (workspace & w3 & _ & Hrun).
  apply bind_Done in Hrun as ([] & w4 & _ & Hrun).
  apply bind_Done in Hrun as ([] & w5 & [= <-] & Hrun).
  apply bind_Done in Hrun as ([] & w6 & [= <-] & Hrun).
  apply bind_Done in Hrun as ([] & w7 & [= <-] & Hrun).
  injection Hrun as <-. cbn [out]. eexists (out w4), _.
  now rewrite <- !app_assoc.
Qed.

End InitMore.

Section RenderMore.
Import Init.

#[local] Arguments String.append !s1 s2 : simpl nomatch.

Lemma prefix_self_app (n b : string) : String.prefix n (n +:+ b) = true.
Proof.
  induction n as [|x n IH]; [apply prefix_nil|].
  cbn [String.append]. rewrite prefix_cons.
  destruct (ascii_dec x x); [assumption | congruence].
Qed.

Lemma includes_self_app (n b : string) : includes n (n +:+ b) = true.
Proof.
  destruct (n +:+ b) eqn:E; cbn [includes]; rewrite <- E, prefix_self_app;
    reflexivity.
Qed.

Lemma includes_self (n : string) : includes n n = true.
Proof.
  pose proof (includes_self_app n "") as Hn.
  assert (n +:+ "" = n) as E; [|now rewrite E in Hn].
  clear Hn. induction n as [|x n IH]; cbn; [reflexivity | now rewrite IH].
Qed.

Lemma includes_join (sep x : string) (l : list string) :
  In x l -> includes x (join sep l) = true.
Proof.
  induction l as [|a r IH]; [intros []|].
  intros Hin. cbn [join]. destruct r as [|b r].
  - destruct Hin as [-> | []]. apply includes_self.
  - destruct Hin as [-> | Hin]; [apply includes_self_app|].
    do 2 apply includes_app_r. now apply IH.
Qed.

Lemma includes_quoted (x : string) (l : list string) :
  In x l -> includes ("'" +:+ x +:+ "'") (quoted l) = true.
Proof.
  intros Hin. unfold quoted. apply includes_join.
  apply in_map_iff. now exists x.
Qed.

Ltac find_piece tac :=
  first [ solve [tac]
        | apply includes_app_l; find_piece tac
        | apply includes_app_r; find_piece tac ].

(** X12.  Nothing that was collected is left out of the single-package
    configuration: every entry file and every format is in it between
    single quotes, exactly as it was entered, and every plugin is in it as
    a call. *)
Theorem config_lists_every_input (entryFiles outputFormats plugins : list string) :
  (forall file, In file entryFiles ->
     includes ("'" +:+ file +:+ "'")
       (createConfigFileContent entryFiles outputFormats plugins) = true) /\
  (forall format, In format outputFormats ->
     includes ("'" +:+ format +:+ "'")
       (createConfigFileContent entryFiles outputFormats plugins) = true) /\
  (forall plugin, In plugin plugins ->
     includes (plugin +:+ "()")
       (createConfigFileContent entryFiles outputFormats plugins) = true).
Proof.
  repeat split.
  - intros file Hin. unfold createConfigFileContent.
    find_piece ltac:(now apply includes_quoted).
  - intros format Hin. unfold createConfigFileContent.
    find_piece ltac:(now apply includes_quoted).
  - intros plugin Hin. unfold createConfigFileContent.
    destruct plugins as [|p ps]; [destruct Hin|].
    cbn [length Nat.ltb Nat.leb].
    find_piece ltac:(apply includes_join, in_map_iff; now exists plugin).
Qed.

(** X13.  Every package is in the workspace configuration with its block
    of name, root, entry files and formats, and every plugin is in it as a
    call. *)
Theorem workspace_lists_every_input
    (workspacePackages : list WorkspacePackage) (plugins : list string) :
  (forall pkg, In pkg workspacePackages ->
     includes
       ("  {" +:+ LF
        +:+ "    name: '" +:+ name pkg +:+ "'," +:+ LF
        +:+ "    root: '" +:+ root pkg +:+ "'," +:+ LF
        +:+ "    config: {" +:+ LF
        +:+ "      entry: ["
        +:+ join ", " (map (fun file => "'" +:+ file +:+ "'") (entryFiles pkg))
        +:+ "]," +:+ LF
        +:+ "      format: ["
        +:+ join ", " (map (fun format => "'" +:+ format +:+ "'") (outputFormats pkg))
        +:+ "]," +:+ LF
        +:+ "    }," +:+ LF
        +:+ "  }")
       (createWorkspaceConfigFileContent workspacePackages plugins) = true) /\
  (forall plugin, In plugin plugins ->
     includes (plugin +:+ "()")
       (createWorkspaceConfigFileContent workspacePackages plugins) = true).
Proof.
  split.
  - intros pkg Hin. change (includes (package_block pkg)
      (createWorkspaceConfigFileContent workspacePackages plugins) = true).
    unfold createWorkspaceConfigFileContent.
    find_piece ltac:(apply includes_join, in_map_iff; now exists pkg).
  - intros plugin Hin. unfold createWorkspaceConfigFileContent.
    destruct plugins as [|p ps]; [destruct Hin|].
    cbn [length Nat.ltb Nat.leb].
    find_piece ltac:(apply includes_join, in_map_iff; now exists plugin).
Qed.

(** X14.  With at least one plugin the single-package renderer puts two
    commas in a row between the format array and the plugins key. *)
Theorem config_doubles_comma (entryFiles outputFormats : list string)
    (plugin : string) (plugins : list string) :
  includes ("]," +:+ "," +:+ LF +:+ TAB +:+ "plugins: [")
    (createConfigFileContent entryFiles outputFormats (plugin :: plugins)) = true.
Proof.
  unfold createConfigFileContent. cbn [length Nat.ltb Nat.leb].
  do 13 apply includes_app_r. rewrite !append_assoc.
  match goal with
  | |- includes ?n (_ +:+ _ +:+ _ +:+ _ +:+ _ +:+ ?rest) = true =>
      change (includes n (n +:+ rest) = true)
  end.
  apply includes_self_app.
Qed.

(** X15.  The earlier workspace renderer is the present one with the
    formats [esm] and [cjs] for every package and no plugin; the earlier
    single-package renderer differs from the present one, at those formats
    and without plugins, by the comma after the format array only. *)
Theorem earlier_renderers_agree :
  (forall workspacePackages : list EarlierInit.WorkspacePackage,
      EarlierInit.createWorkspaceConfigContent workspacePackages =
      createWorkspaceConfigFileContent
        (map (fun pkg =>
                {| name := EarlierInit.name pkg;
                   root := EarlierInit.root pkg;
                   entryFiles := EarlierInit.entryFiles pkg;
                   outputFormats := ["esm"; "cjs"] |})
             workspacePackages)
        []) /\
  (forall entryFiles : list string,
      exists body : string,
        EarlierInit.createSinglePackageConfigContent entryFiles =
          body +:+ LF +:+ "})" +:+ LF /\
        createConfigFileContent entryFiles ["esm"; "cjs"] [] =
          body +:+ "," +:+ LF +:+ "})" +:+ LF).
Proof.
  split.
  - intros pkgs. unfold EarlierInit.createWorkspaceConfigContent,
      createWorkspaceConfigFileContent. rewrite map_map.
    reflexivity.
  - intros entries.
    exists ("import { defineConfig } from 'bunup'" +:+ LF +:+ LF
            +:+ "export default defineConfig({" +:+ LF
            +:+ TAB +:+ "entry: [" +:+ quoted entries +:+ "]," +:+ LF
            +:+ TAB +:+ "format: ['esm', 'cjs']").
    split; rewrite !append_assoc; reflexivity.
Qed.

End RenderMore.

(** ** Further worked runs *)

Section RunsMore.
Import Sample.
#[local] Existing Instance IntegerNumbers.
#[local] Existing Instance demo_host.

Lemma merge_without_scripts_witness :
  let w := world_of (on_disk manifest_scripts_null) [] in
  exists w',
    Init.handleBuildScripts "package.json" w = Done tt w' /\
    out w' =
      [EWrite "package.json"
         (JSON_stringify
            (JObj [("name", JStr "demo");
                   ("scripts", JObj [("build", JStr "bunup");
                                     ("dev", JStr "bunup --watch")])]) 2)].
Proof.
  intros w. eexists. split.
  - apply (merge_without_scripts "package.json" w).
    + vm_compute. reflexivity.
    + right. vm_compute. reflexivity.
  - vm_compute. reflexivity.
Defined.

Lemma init_without_manifest_witness :
  Init.init (world_of ∅ [KConfirm true]) =
  Exited 1 {| files := ∅; keys := [KConfirm true];
              out := [EIntro " Initialize bunup in an existing project ";
                      ELogError "package.json not found"] |}.
Proof.
  apply (init_without_manifest (world_of ∅ [KConfirm true])).
  left. vm_compute. reflexivity.
Defined.

Lemma collectEntryFiles_valid_witness :
  let fs : gmap string string :=
    {[ "src/index.ts" := "export {}"; "src/cli.ts" := "export {}" ]} in
  let w := world_of fs [KText "src/index.ts"; KConfirm true;
                        KCancel; KConfirm true;
                        KText "src/index.ts"; KText "src/cli.ts"; KConfirm false] in
  let w' := after (Init.collectEntryFiles w) in
  Init.collectEntryFiles w
    = Done [Value "src/index.ts"; Symbol; Value "src/cli.ts"] w' /\
  List.NoDup ["src/index.ts"; "src/cli.ts"] /\
  fs_isFile fs "src/cli.ts" = true /\
  files w' = fs.
Proof.
  intros fs w w'.
  assert (Init.collectEntryFiles w
          = Done [Value "src/index.ts"; Symbol; Value "src/cli.ts"] w') as Hrun
    by (vm_compute; reflexivity).
  destruct (collectEntryFiles_valid w w' _ Hrun) as (Hnd & Hall & Hf).
  destruct (Hall "src/cli.ts") as (_ & _ & Hfile); [right; right; now left|].
  repeat split; assumption.
Defined.

Lemma collectEntryFilesForPackage_valid_witness :
  let fs : gmap string string := {[ "packages/core/src/index.ts" := "export {}" ]} in
  let w := world_of fs [KText "packages/core/src/index.ts"; KText "src/index.ts";
                        KConfirm true; KCancel; KConfirm false] in
  let w' := after (Init.collectEntryFilesForPackage "packages/core" "core" w) in
  Init.collectEntryFilesForPackage "packages/core" "core" w
    = Done [Value "src/index.ts"; Symbol] w' /\
  fs_isFile fs (path_join "packages/core" "src/index.ts") = true /\
  files w' = fs.
Proof.
  intros fs w w'.
  assert (Init.collectEntryFilesForPackage "packages/core" "core" w
          = Done [Value "src/index.ts"; Symbol] w') as Hrun
    by (vm_compute; reflexivity).
  destruct (collectEntryFilesForPackage_valid _ _ w w' _ Hrun) as (_ & Hall & Hf).
  destruct (Hall "src/index.ts") as (_ & _ & Hfile); [now left|].
  repeat split; assumption.
Defined.

Lemma collectWorkspacePackages_valid_witness :
  let fs : gmap string string := {[ "packages/core/src/index.ts" := "export {}" ]} in
  let w := world_of fs [KText "core"; KText "packages/core";
                        KText "src/index.ts"; KConfirm true;
                        KCancel; KConfirm false;
                        KCancel; KConfirm false] in
  let packages :=
    [{| Init.pushed_name := "core"; Init.pushed_root := "packages/core";
        Init.pushed_entryFiles := [Value "src/index.ts"; Symbol];
        Init.pushed_outputFormats := Symbol |}] in
  let w' := after (Init.collectWorkspacePackages w) in
  Init.collectWorkspacePackages w = Done packages w' /\
  List.NoDup (map Init.pushed_name packages) /\
  files w' = fs.
Proof.
  intros fs w packages w'.
  assert (Init.collectWorkspacePackages w = Done packages w') as Hrun
    by (vm_compute; reflexivity).
  destruct (collectWorkspacePackages_valid w w' _ Hrun) as (Hnd & _ & Hf).
  repeat split; assumption.
Defined.

Lemma createProject_without_template_witness :
  Create.createProject None (world_of ∅ [KCancel; KText "my-lib"]) =
  Exited 1 {| files := ∅; keys := [KText "my-lib"];
              out := [EIntro " Scaffold a new project with Bunup ";
                      EPrompt "Select a template";
                      ECancel "Invalid template"] |}.
Proof.
  apply (createProject_without_template None
           (world_of ∅ [KCancel; KText "my-lib"]) [KText "my-lib"]).
  reflexivity.
Defined.

Lemma template_dir_not_empty_witness :
  Create.getTemplateDir template_empty_basic Create.basic true <> "".
Proof.
  apply (template_dir_not_empty template_empty_basic Create.basic true).
  - discriminate.
  - intros m. discriminate.
Defined.

(** The variant selection is left with Ctrl-C: the run goes on and
    downloads the [full] directory. *)
Lemma createProject_downloads_witness :
  let w := world_of ∅ [KSelect "react"; KCancel; KText "my-lib";
                       KText "me/my-lib"] in
  let w' := after (Create.createProject None w) in
  Create.createProject None w = Done tt w' /\
  exists projectName,
    projectName <> "" /\
    In (EDownload "github:bunup/templates/react-lib"
          (Create.getProjectPath projectName))
       (out w').
Proof.
  intros w w'.
  assert (Create.createProject None w = Done tt w') as Hrun
    by (vm_compute; reflexivity).
  split; [assumption|].
  destruct (createProject_downloads None w w' Hrun)
    as (template & variantKey & r & projectName & Hk & Hin & _ & Hne & Hdown).
  exists projectName. split; [assumption|].
  unfold w, world_of in Hk. cbn [keys] in Hk. injection Hk as Hty <- <-.
  destruct Hin as [<- | [<- | []]]; [discriminate Hty | exact Hdown].
Defined.

(** The plugin selection is left with Ctrl-C: the run completes. *)
Lemma init_completed_installs_witness :
  let fs := <["src/index.ts" := "export {}"]> (on_disk manifest_old_build) in
  let w := world_of fs [KConfirm false; KText "src/index.ts"; KConfirm false;
                        KMulti ["esm"; "cjs"]; KCancel; KConfirm false] in
  let w' := after (Init.init w) in
  Init.init w = Done tt w' /\
  exists shown summary,
    out w' = shown ++ [ETask "Installing bunup";
                       EExec "bun add -d bunup";
                       ETaskDone "Bunup installed";
                       EOutro summary].
Proof.
  intros fs w w'.
  assert (Init.init w = Done tt w') as Hrun by (vm_compute; reflexivity).
  split; [assumption|]. exact (proj2 (init_completed_installs w w' Hrun)).
Defined.

End RunsMore.
